(** * Eco-tracker: carbon footprint calculator, recommendation engine and
      trend forecaster

    Shallow embedding of [src/carbon_calculator.py],
    [src/ai_recommendations.py] and [src/ml_models.py].  Python floats are
    modelled as exact rationals [Q]; Python ints as [Z]; dictionaries whose
    iteration order matters as association lists in insertion order;
    exceptions as the [Error] branch of a small result monad. *)

From Stdlib Require Import QArith Qabs Qround Qminmax ZArith String Ascii List Bool Lia.
From Stdlib Require Import Sorting.Sorted Lqa.
Import ListNotations.

Open Scope string_scope.

(** ** Python exceptions and the result monad *)

Inductive py_exn :=
  | KeyError (key : string)
  | IndexError (msg : string)
  | ValueError (msg : string)
  | TypeError (msg : string).

Inductive result (A : Type) :=
  | Ok (a : A)
  | Error (e : py_exn).
Arguments Ok {A} a.
Arguments Error {A} e.

Definition bind {A B} (m : result A) (f : A -> result B) : result B :=
  match m with
  | Ok a => f a
  | Error e => Error e
  end.

Notation "x <- m ;; k" := (bind m (fun x => k))
  (at level 61, m at next level, right associativity).

(** ** Python dictionaries as association lists (insertion order) *)

Fixpoint dict_get {V} (d : list (string * V)) (k : string) : option V :=
  match d with
  | [] => None
  | (k', v) :: d' => if String.eqb k k' then Some v else dict_get d' k
  end.

(** [d[k]]: raises [KeyError] when absent. *)
Definition dict_index {V} (d : list (string * V)) (k : string) : result V :=
  match dict_get d k with
  | Some v => Ok v
  | None => Error (KeyError k)
  end.

(** [d.get(k, default)] *)
Definition dict_get_default {V} (d : list (string * V)) (k : string) (dflt : V) : V :=
  match dict_get d k with
  | Some v => v
  | None => dflt
  end.

Definition dict_mem {V} (d : list (string * V)) (k : string) : bool :=
  match dict_get d k with Some _ => true | None => false end.

(** ** Python string operations on ASCII text *)

Definition is_upper (c : ascii) : bool :=
  (Nat.leb 65 (nat_of_ascii c) && Nat.leb (nat_of_ascii c) 90)%bool.

Definition is_lower (c : ascii) : bool :=
  (Nat.leb 97 (nat_of_ascii c) && Nat.leb (nat_of_ascii c) 122)%bool.

Definition is_cased (c : ascii) : bool := (is_upper c || is_lower c)%bool.

Definition char_lower (c : ascii) : ascii :=
  if is_upper c then ascii_of_nat (nat_of_ascii c + 32) else c.

Definition char_upper (c : ascii) : ascii :=
  if is_lower c then ascii_of_nat (nat_of_ascii c - 32) else c.

(** [str.lower()] *)
Fixpoint lower (s : string) : string :=
  match s with
  | EmptyString => EmptyString
  | String c s' => String (char_lower c) (lower s')
  end.

(** [str.title()]: a cased character following a cased character is
    lowercased, any other cased character is uppercased. *)
Fixpoint title_aux (prev_cased : bool) (s : string) : string :=
  match s with
  | EmptyString => EmptyString
  | String c s' =>
      String (if prev_cased then char_lower c else char_upper c)
             (title_aux (is_cased c) s')
  end.

Definition title (s : string) : string := title_aux false s.

Fixpoint prefixb (p s : string) : bool :=
  match p, s with
  | EmptyString, _ => true
  | String _ _, EmptyString => false
  | String a p', String b s' => (Ascii.eqb a b && prefixb p' s')%bool
  end.

(** [p in s] for strings: substring test. *)
Fixpoint str_contains (p s : string) : bool :=
  (prefixb p s ||
   match s with
   | EmptyString => false
   | String _ s' => str_contains p s'
   end)%bool.

Open Scope Q_scope.

(** [a < b] on floats. *)
Definition Qltb (a b : Q) : bool := negb (Qle_bool b a).

(** ** carbon_calculator.py: [CarbonFootprintCalculator] *)

Module Calculator.

Definition transportation_factors : list (string * Q) :=
  [("car_gasoline", 0.411); ("car_diesel", 0.364); ("car_electric", 0.1);
   ("bus", 0.089); ("train", 0.041); ("plane_domestic", 0.255);
   ("plane_international", 0.195); ("motorcycle", 0.197);
   ("bicycle", 0.0); ("walking", 0.0)].

Definition energy_factors : list (string * Q) :=
  [("electricity", 0.92); ("natural_gas", 5.3); ("heating_oil", 10.15);
   ("propane", 5.68); ("coal", 2.23)].

Definition food_factors : list (string * Q) :=
  [("beef", 27.0); ("lamb", 39.2); ("pork", 12.1); ("chicken", 6.9);
   ("fish", 6.1); ("dairy", 3.2); ("eggs", 4.8); ("vegetables", 2.0);
   ("fruits", 1.1); ("grains", 2.5); ("processed_food", 5.8)].

Definition waste_factors : list (string * Q) :=
  [("landfill", 0.57); ("recycling", 0.0); ("composting", 0.0);
   ("incineration", 0.7)].

(** A transport entry is the dict [{'distance': .., 'frequency': ..}]. *)
Definition transport_details := list (string * Q).

Definition calculate_transportation_footprint
    (transport_data : list (string * transport_details)) : Q :=
  fold_left
    (fun total_emissions '(mode, details) =>
       match dict_get transportation_factors mode with
       | Some factor =>
           let distance := dict_get_default details "distance" 0 in
           let frequency := dict_get_default details "frequency" 1 in
           total_emissions + distance * frequency * factor
       | None => total_emissions
       end)
    transport_data 0.0.

(** Energy, food and waste share the same loop shape. *)
Definition calculate_by_factor (factors : list (string * Q))
    (data : list (string * Q)) : Q :=
  fold_left
    (fun total_emissions '(key, amount) =>
       match dict_get factors key with
       | Some factor => total_emissions + amount * factor
       | None => total_emissions
       end)
    data 0.0.

Definition calculate_energy_footprint := calculate_by_factor energy_factors.
Definition calculate_food_footprint := calculate_by_factor food_factors.
Definition calculate_waste_footprint := calculate_by_factor waste_factors.

(** [user_data]: the categories the code looks up; any other key of the
    Python dict is never read. *)
Record activity_input := {
  ui_transportation : option (list (string * transport_details));
  ui_energy : option (list (string * Q));
  ui_food : option (list (string * Q));
  ui_waste : option (list (string * Q))
}.

Definition opt_entry {D} (name : string) (o : option D) (f : D -> Q)
    : list (string * Q) :=
  match o with
  | Some d => [(name, f d)]
  | None => []
  end.

(** [sum(iterable)] starts at the int [0] and adds left to right. *)
Definition py_sum (l : list Q) : Q := fold_left Qplus l 0.

(** The breakdown dict, in insertion order, with ['total'] last. *)
Definition calculate_total_footprint (user_data : activity_input)
    : list (string * Q) :=
  let footprint_breakdown :=
    (opt_entry "transportation" (ui_transportation user_data)
      calculate_transportation_footprint
    ++ opt_entry "energy" (ui_energy user_data) calculate_energy_footprint
    ++ opt_entry "food" (ui_food user_data) calculate_food_footprint
    ++ opt_entry "waste" (ui_waste user_data) calculate_waste_footprint)%list in
  (footprint_breakdown ++ [("total", py_sum (map snd footprint_breakdown))])%list.

(** A category's value as a caller reads it: absent means zero. *)
Definition category_or_zero {D} (o : option D) (f : D -> Q) : Q :=
  match o with Some d => f d | None => 0 end.

End Calculator.


(** ** ai_recommendations.py: [AIRecommendationEngine] *)

Module Recommendations.

(** [_load_recommendation_database] *)
Definition recommendation_database : list (string * list (string * list string)) :=
  [("transportation",
     [("high_emissions",
       ["Switch to an electric or hybrid vehicle - can reduce emissions by 40-60%";
        "Use public transportation for daily commutes";
        "Implement carpooling or ride-sharing for regular trips";
        "Work from home 2-3 days per week if possible";
        "Combine multiple errands into single trips";
        "Consider cycling or walking for short distances (<3 miles)";
        "Plan vacations closer to home to reduce flight emissions";
        "Use video conferencing instead of business travel"]);
      ("medium_emissions",
       ["Maintain your vehicle properly for better fuel efficiency";
        "Plan routes efficiently to minimize driving time";
        "Use eco-driving techniques (smooth acceleration, steady speeds)";
        "Consider upgrading to a more fuel-efficient vehicle";
        "Use public transport for longer trips"]);
      ("low_emissions",
       ["Great job! Your transportation emissions are low";
        "Continue using sustainable transport options";
        "Share your transportation habits with friends and family"])]);
   ("energy",
     [("high_emissions",
       ["Switch to renewable energy sources (solar, wind)";
        "Improve home insulation to reduce heating/cooling needs";
        "Upgrade to energy-efficient appliances (ENERGY STAR rated)";
        "Install a programmable thermostat";
        "Replace incandescent bulbs with LED lighting";
        "Unplug electronics when not in use";
        "Use cold water for washing clothes when possible";
        "Consider a heat pump for heating and cooling"]);
      ("medium_emissions",
       ["Set thermostat 2-3 degrees lower in winter, higher in summer";
        "Use natural light during the day";
        "Air-dry clothes instead of using the dryer";
        "Seal air leaks around windows and doors"]);
      ("low_emissions",
       ["Excellent energy management!";
        "Continue your energy-efficient practices";
        "Consider sharing tips with neighbors"])]);
   ("food",
     [("high_emissions",
       ["Reduce red meat consumption (beef, lamb) by 50%";
        "Try 'Meatless Monday' or plant-based meals 2-3 times per week";
        "Buy local and seasonal produce when possible";
        "Reduce food waste through meal planning";
        "Grow your own herbs and vegetables";
        "Choose organic and sustainably produced foods";
        "Reduce dairy consumption or try plant-based alternatives";
        "Avoid heavily processed and packaged foods"]);
      ("medium_emissions",
       ["Plan meals in advance to reduce waste";
        "Choose chicken or fish over red meat";
        "Buy from local farmers markets";
        "Compost food scraps"]);
      ("low_emissions",
       ["Your food choices are climate-friendly!";
        "Keep up the sustainable eating habits";
        "Consider sharing recipes with others"])]);
   ("waste",
     [("high_emissions",
       ["Increase recycling rate to 80% or higher";
        "Start composting organic waste";
        "Reduce single-use items (bags, bottles, containers)";
        "Buy products with minimal packaging";
        "Donate or sell items instead of throwing them away";
        "Choose reusable alternatives (water bottles, shopping bags)";
        "Repair items instead of replacing them";
        "Buy second-hand when possible"]);
      ("medium_emissions",
       ["Improve sorting for better recycling";
        "Reduce packaging waste by buying in bulk";
        "Use both sides of paper";
        "Choose products made from recycled materials"]);
      ("low_emissions",
       ["Excellent waste management!";
        "Your waste practices are very sustainable";
        "Help others learn about proper waste disposal"])])].

(** [_load_impact_estimates] (kg CO2/year) *)
Definition impact_estimates : list (string * list (string * Z)) :=
  [("transportation",
     [("switch_to_electric", -2000); ("work_from_home_2days", -800);
      ("use_public_transport", -1200); ("carpool_regularly", -600);
      ("eco_driving", -300); ("bike_short_trips", -400)]);
   ("energy",
     [("renewable_energy", -1500); ("led_lighting", -200);
      ("efficient_appliances", -500); ("better_insulation", -800);
      ("programmable_thermostat", -300); ("unplug_devices", -150)]);
   ("food",
     [("reduce_meat_50percent", -500); ("local_food", -200);
      ("reduce_food_waste", -300); ("plant_based_2days", -400);
      ("organic_food", -100)]);
   ("waste",
     [("increase_recycling", -200); ("composting", -150);
      ("reduce_single_use", -100); ("buy_second_hand", -80);
      ("repair_vs_replace", -120)])]%Z.

(** The [action_mapping] table of [_extract_action_key]. *)
Definition action_mapping : list (string * list (string * string)) :=
  [("transportation",
     [("electric", "switch_to_electric"); ("work from home", "work_from_home_2days");
      ("public", "use_public_transport"); ("carpool", "carpool_regularly");
      ("eco-driving", "eco_driving"); ("cycling", "bike_short_trips")]);
   ("energy",
     [("renewable", "renewable_energy"); ("LED", "led_lighting");
      ("appliances", "efficient_appliances"); ("insulation", "better_insulation");
      ("thermostat", "programmable_thermostat"); ("unplug", "unplug_devices")]);
   ("food",
     [("meat", "reduce_meat_50percent"); ("local", "local_food");
      ("waste", "reduce_food_waste"); ("plant-based", "plant_based_2days");
      ("organic", "organic_food")]);
   ("waste",
     [("recycling", "increase_recycling"); ("composting", "composting");
      ("single-use", "reduce_single_use"); ("second-hand", "buy_second_hand");
      ("repair", "repair_vs_replace")])].

(** The first keyword (in table order) occurring in [rec_lower]. *)
Fixpoint first_match (rec_lower : string) (m : list (string * string))
    : option string :=
  match m with
  | [] => None
  | (keyword, action) :: m' =>
      if str_contains keyword rec_lower then Some action
      else first_match rec_lower m'
  end.

(** [_extract_action_key]: [action_mapping[category]] raises [KeyError] for an
    unknown category; [list(...values())[0]] raises [IndexError] on an empty
    table. *)
Definition _extract_action_key (recommendation category : string)
    : result string :=
  mapping <- dict_index action_mapping category ;;
  let rec_lower := lower recommendation in
  match first_match rec_lower mapping with
  | Some action => Ok action
  | None =>
      match map snd mapping with
      | action :: _ => Ok action
      | [] => Error (IndexError "list index out of range")
      end
  end.

(** [int(x)] on a float truncates toward zero. *)
Definition py_int (q : Q) : Z := Z.quot (Qnum q) (Zpos (Qden q)).

(** [min(a, b)] returns [a] unless [b < a]. *)
Definition py_min (a b : Q) : Q := if Qltb b a then b else a.

(** [_calculate_priority] *)
Definition _calculate_priority (current_emissions : Q) (impact : Z) : Z :=
  let emission_score := py_min (current_emissions / 100) 5 in
  let impact_score := py_min (inject_Z (Z.abs impact) / 500) 5 in
  py_int (emission_score + impact_score).

(** [_estimate_difficulty] *)
Definition _estimate_difficulty (recommendation : string) : string :=
  let rec_lower := lower recommendation in
  if existsb (fun k => str_contains k rec_lower)
       ["switch"; "install"; "upgrade"; "renewable"] then "High"
  else if existsb (fun k => str_contains k rec_lower)
       ["reduce"; "increase"; "improve"; "plan"] then "Medium"
  else "Low".

(** A recommendation dict. *)
Record recommendation := {
  rec_category : string;
  rec_text : string;
  impact_estimate : Z;
  priority : Z;
  difficulty : string
}.

Definition thresholds : list (string * list (string * Q)) :=
  [("transportation", [("high", 100); ("medium", 50)]);
   ("energy", [("high", 200); ("medium", 100)]);
   ("food", [("high", 150); ("medium", 75)]);
   ("waste", [("high", 50); ("medium", 25)])].

(** [for rec in category_recs[:2]: ...] *)
Fixpoint recs_for (category : string) (emissions : Q) (recs : list string)
    : result (list recommendation) :=
  match recs with
  | [] => Ok []
  | rec :: recs' =>
      action_key <- _extract_action_key rec category ;;
      imps <- dict_index impact_estimates category ;;
      let impact := dict_get_default imps action_key 0%Z in
      rest <- recs_for category emissions recs' ;;
      Ok ({| rec_category := title category;
             rec_text := rec;
             impact_estimate := impact;
             priority := _calculate_priority emissions impact;
             difficulty := _estimate_difficulty rec |} :: rest)
  end.

(** The body of [for category, emissions in user_footprint.items()]. *)
Definition category_step (category : string) (emissions : Q)
    : result (list recommendation) :=
  if String.eqb category "total" then Ok []
  else
    th <- dict_index thresholds category ;;
    high <- dict_index th "high" ;;
    level <- (if Qltb high emissions then Ok "high_emissions"
              else medium <- dict_index th "medium" ;;
                   Ok (if Qltb medium emissions then "medium_emissions"
                       else "low_emissions")) ;;
    db <- dict_index recommendation_database category ;;
    category_recs <- dict_index db level ;;
    recs_for category emissions (firstn 2 category_recs).

Fixpoint collect (user_footprint : list (string * Q))
    : result (list recommendation) :=
  match user_footprint with
  | [] => Ok []
  | (category, emissions) :: fp' =>
      here <- category_step category emissions ;;
      rest <- collect fp' ;;
      Ok (here ++ rest)%list
  end.

(** The sort key [(priority, abs(impact_estimate))]. *)
Definition sort_key (r : recommendation) : Z * Z :=
  (priority r, Z.abs (impact_estimate r)).

(** Lexicographic [<] on the key tuples. *)
Definition key_lt (a b : Z * Z) : bool :=
  (Z.ltb (fst a) (fst b) || (Z.eqb (fst a) (fst b) && Z.ltb (snd a) (snd b)))%bool.

(** [list.sort(key=..., reverse=True)]: a stable sort into descending key
    order; equal keys keep their original order. *)
Fixpoint insert_desc (x : recommendation) (l : list recommendation)
    : list recommendation :=
  match l with
  | [] => [x]
  | y :: l' =>
      if key_lt (sort_key y) (sort_key x) then x :: y :: l'
      else y :: insert_desc x l'
  end.

Definition sort_desc (l : list recommendation) : list recommendation :=
  fold_left (fun acc x => insert_desc x acc) l [].

(** [get_personalized_recommendations]; [user_patterns] and [user_goals]
    are not read. *)
Definition get_personalized_recommendations
    (user_footprint : list (string * Q)) : result (list recommendation) :=
  recommendations <- collect user_footprint ;;
  Ok (firstn 8 (sort_desc recommendations)).

(** Descending by the sort key: no element's key is below the next one's. *)
Definition sorted_desc (l : list recommendation) : Prop :=
  Sorted (fun a b => key_lt (sort_key a) (sort_key b) = false) l.

(** *** [generate_action_plan] *)

Record phase := {
  focus : string;
  actions : list recommendation;
  expected_reduction : Z
}.

Record action_plan := {
  weeks_1_2 : phase;
  weeks_3_6 : phase;
  weeks_7_12 : phase;
  total_potential_reduction : Z
}.

Definition sum_abs_impact (l : list recommendation) : Z :=
  fold_left (fun acc r => acc + Z.abs (impact_estimate r))%Z l 0%Z.

Definition with_difficulty (d : string) (l : list recommendation)
    : list recommendation :=
  filter (fun r => String.eqb (difficulty r) d) l.

Definition make_phase (label : string) (selected : list recommendation) : phase :=
  {| focus := label; actions := selected;
     expected_reduction := sum_abs_impact selected |}.

Definition generate_action_plan (recommendations : list recommendation)
    : action_plan :=
  let easy_wins := with_difficulty "Low" recommendations in
  let medium_actions := with_difficulty "Medium" recommendations in
  let major_changes := with_difficulty "High" recommendations in
  let p1 := make_phase "Quick Wins" (firstn 3 easy_wins) in
  let p2 := make_phase "Habit Changes" (firstn 3 medium_actions) in
  let p3 := make_phase "Major Improvements" (firstn 2 major_changes) in
  {| weeks_1_2 := p1; weeks_3_6 := p2; weeks_7_12 := p3;
     total_potential_reduction :=
       fold_left Z.add
         [expected_reduction p1; expected_reduction p2; expected_reduction p3]
         0%Z |}.

End Recommendations.

(** ** ml_models.py: [CarbonFootprintPredictor] *)

Module Predictor.

(** *** [predict_future_trend]

    Each call to [np.random.normal(0, sigma)] returns [sigma * z] for a
    standard normal draw [z]; [noise i] is the draw made at step [i].  The
    forecast holds for every noise sequence. *)

Definition list_last_or_error (l : list Q) : result Q :=
  match rev l with
  | x :: _ => Ok x
  | [] => Error (IndexError "list index out of range")
  end.

(** [l[-k:]] *)
Definition last_n {A} (k : nat) (l : list A) : list A :=
  skipn (length l - k) l.

Definition q_sum (l : list Q) : Q := fold_left Qplus l 0.

(** Slope of [np.polyfit(x, y, 1)] with [x = 0..k-1]: the ordinary
    least-squares slope. *)
Definition ols_slope (ys : list Q) : Q :=
  let k := length ys in
  let xs := map (fun i => inject_Z (Z.of_nat i)) (seq 0 k) in
  let n := inject_Z (Z.of_nat k) in
  let mx := q_sum xs / n in
  let my := q_sum ys / n in
  q_sum (map (fun '(x, y) => (x - mx) * (y - my)) (combine xs ys))
  / q_sum (map (fun x => (x - mx) * (x - mx)) xs).

(** [max(a, b)] returns [a] unless [b > a]. *)
Definition py_max (a b : Q) : Q := if Qle_bool b a then a else b.

Definition predict_future_trend (historical_data : list Q) (days_ahead : Z)
    (noise : nat -> Q) : result (list Q) :=
  if Nat.ltb (length historical_data) 7 then
    (* [[historical_data[-1]] * days_ahead]: a non-positive count gives [] *)
    last <- list_last_or_error historical_data ;;
    Ok (repeat last (Z.to_nat days_ahead))
  else
    let recent_data := last_n 30 historical_data in
    let trend_slope := ols_slope recent_data in
    last_value <- list_last_or_error historical_data ;;
    Ok (map (fun i =>
               let projected_value := last_value + trend_slope * inject_Z (Z.of_nat i) in
               let variation := Qabs projected_value * 0.05 * noise i in
               py_max 0 (projected_value + variation))
            (seq 1 (Z.to_nat days_ahead))).

(** *** Model bundle and [predict_footprint] *)

(** A DataFrame cell. *)
Inductive cell :=
  | CNum (q : Q)
  | CStr (s : string).

(** A fitted regressor is its prediction function. *)
Definition regressor := list Q -> Q.

(** A fitted [StandardScaler]: [mean_] and [scale_]. *)
Record scaler := { mean_ : list Q; scale_ : list Q }.

(** [self.models], [self.scalers], [self.encoders] (each encoder is its
    [classes_]) and [self.feature_names]. *)
Record bundle := {
  models : list (string * regressor);
  scalers : list (string * scaler);
  encoders : list (string * list cell);
  feature_names : list string
}.

(** [__init__] *)
Definition new_predictor : bundle :=
  {| models := []; scalers := []; encoders := []; feature_names := [] |}.

Definition cell_eqb (a b : cell) : bool :=
  match a, b with
  | CNum x, CNum y => Qeq_bool x y
  | CStr x, CStr y => String.eqb x y
  | _, _ => false
  end.

Fixpoint index_of (x : cell) (l : list cell) : option nat :=
  match l with
  | [] => None
  | y :: l' =>
      if cell_eqb x y then Some 0%nat
      else option_map S (index_of x l')
  end.

(** [LabelEncoder.transform] of one value. *)
Definition label_transform (classes : list cell) (v : cell) : result cell :=
  match index_of v classes with
  | Some i => Ok (CNum (inject_Z (Z.of_nat i)))
  | None => Error (ValueError "y contains previously unseen labels")
  end.

Definition as_float (c : cell) : result Q :=
  match c with
  | CNum q => Ok q
  | CStr _ => Error (ValueError "could not convert string to float")
  end.

Fixpoint map_result {A B} (f : A -> result B) (l : list A) : result (list B) :=
  match l with
  | [] => Ok []
  | x :: l' => y <- f x ;; ys <- map_result f l' ;; Ok (y :: ys)
  end.

(** Replace the value of key [k] in an association list. *)
Definition dict_set {V} (d : list (string * V)) (k : string) (v : V)
    : list (string * V) :=
  if dict_mem d k then map (fun '(k', v') => if String.eqb k k' then (k', v) else (k', v')) d
  else (d ++ [(k, v)])%list.

(** [df_processed[cols]] on the one-row frame of [predict_footprint]. *)
Definition select (row : list (string * cell)) (cols : list string)
    : result (list cell) :=
  map_result (fun c => dict_index row c) cols.

(** [preprocess_data(df_user, is_training=False)] on a one-row frame. *)
Definition preprocess_infer (b : bundle) (row : list (string * cell))
    : result (list (string * cell)) :=
  row <- fold_left
           (fun acc col =>
              r <- acc ;;
              match dict_get r col, dict_get (encoders b) col with
              | Some v, Some classes =>
                  v' <- label_transform classes v ;; Ok (dict_set r col v')
              | _, _ => Ok r
              end)
           ["location_type"; "vehicle_type"] (Ok row) ;;
  match dict_get (scalers b) "features" with
  | Some sc =>
      xs <- select row (feature_names b) ;;
      xs <- map_result as_float xs ;;
      let scaled := map (fun '(x, (m, s)) => (x - m) / s)
                        (combine xs (combine (mean_ sc) (scale_ sc))) in
      Ok (fold_left (fun r '(c, x) => dict_set r c (CNum x))
                    (combine (feature_names b) scaled) row)
  | None => Ok row
  end.

(** [predict_footprint(user_data, model_name)] *)
Definition predict_footprint (b : bundle) (user_data : list (string * cell))
    (model_name : string) : result Q :=
  match dict_get (models b) model_name with
  | None => Error (ValueError ("Model " ++ model_name ++ " not trained yet"))
  | Some model =>
      df_processed <- preprocess_infer b user_data ;;
      xs <- select df_processed (feature_names b) ;;
      xs <- map_result as_float xs ;;
      Ok (model xs)
  end.

(** *** DataFrames *)

(** A DataFrame: its row count and its columns in order. *)
Record dataframe := {
  df_nrows : nat;
  df_cols : list (string * list cell)
}.

(** *** [generate_synthetic_data]

    The generator seeds numpy's global generator; [d_int name i] and
    [d_real name i] are the raw integer and standard real draws of column
    [name] at row [i].  A bounded draw such as [randint(a, b)] or [choice]
    lands in its range by reduction modulo the range width.  The
    properties proved below hold for every sequence of draws. *)
Record draws := {
  d_int : string -> nat -> Z;
  d_real : string -> nat -> Q
}.

Section Synthetic.
Variable d : draws.

Definition randint (name : string) (lo hi : Z) (i : nat) : Q :=
  inject_Z (lo + Z.modulo (d_int d name i) (hi - lo)).
Definition normal (name : string) (mu sigma : Q) (i : nat) : Q :=
  mu + sigma * d_real d name i.
Definition exponential (name : string) (scale : Q) (i : nat) : Q :=
  scale * Qabs (d_real d name i).
Definition poisson (name : string) (i : nat) : Q :=
  inject_Z (Z.abs (d_int d name i)).
Definition uniform (name : string) (lo hi : Q) (i : nat) : Q :=
  lo + (hi - lo) * d_real d name i.
Definition choice {A} (name : string) (options : list A) (dflt : A) (i : nat) : A :=
  nth (Z.to_nat (Z.modulo (d_int d name i) (Z.of_nat (length options))))
      options dflt.

Definition location_types := ["urban"; "suburban"; "rural"].
Definition vehicle_types := ["gasoline"; "diesel"; "electric"; "hybrid"].

(** The numeric columns the target formula reads. *)
Definition car_miles_per_week := exponential "car_miles_per_week" 100.
Definition flights_per_year := poisson "flights_per_year".
Definition electricity_kwh_monthly := normal "electricity_kwh_monthly" 900 300.
Definition natural_gas_therms_monthly := normal "natural_gas_therms_monthly" 50 20.
Definition renewable_energy (i : nat) : Q := choice "renewable_energy" [0; 1] 0 i.
Definition meat_meals_per_week := randint "meat_meals_per_week" 0 21.
Definition waste_kg_per_week := normal "waste_kg_per_week" 15 5.
Definition recycling_percentage := uniform "recycling_percentage" 0 100.

(** The [carbon_footprint] of row [i], before noise and floor. *)
Definition target_formula (i : nat) : Q :=
  car_miles_per_week i * 52 * 0.411 +
  flights_per_year i * 1000 * 0.225 +
  electricity_kwh_monthly i * 12 * 0.92 * (1 - renewable_energy i * 0.8) +
  natural_gas_therms_monthly i * 12 * 5.3 +
  meat_meals_per_week i * 52 * 2.5 +
  waste_kg_per_week i * 52 * 0.57 * (1 - recycling_percentage i / 100).

(** [np.maximum(a, b)] *)
Definition np_maximum (a b : Q) : Q := if Qle_bool b a then a else b.

Definition carbon_footprint (i : nat) : Q :=
  np_maximum (target_formula i + normal "noise" 0 500 i) 1000.

Definition num_col (f : nat -> Q) (n : nat) : list cell :=
  map (fun i => CNum (f i)) (seq 0 n).

Definition str_col (f : nat -> string) (n : nat) : list cell :=
  map (fun i => CStr (f i)) (seq 0 n).

(** A negative [n_samples] makes the first [np.random.randint] raise. *)
Definition generate_synthetic_data (n_samples : Z) : result dataframe :=
  if Z.ltb n_samples 0 then Error (ValueError "negative dimensions are not allowed")
  else
    let n := Z.to_nat n_samples in
    Ok {| df_nrows := n;
          df_cols :=
            [("age", num_col (randint "age" 18 80) n);
             ("income", num_col (normal "income" 50000 20000) n);
             ("household_size", num_col (randint "household_size" 1 6) n);
             ("location_type", str_col (choice "location_type" location_types "") n);
             ("car_miles_per_week", num_col car_miles_per_week n);
             ("public_transport_usage", num_col (randint "public_transport_usage" 0 7) n);
             ("flights_per_year", num_col flights_per_year n);
             ("vehicle_type", str_col (choice "vehicle_type" vehicle_types "") n);
             ("electricity_kwh_monthly", num_col electricity_kwh_monthly n);
             ("natural_gas_therms_monthly", num_col natural_gas_therms_monthly n);
             ("home_size_sqft", num_col (normal "home_size_sqft" 2000 800) n);
             ("renewable_energy", num_col renewable_energy n);
             ("meat_meals_per_week", num_col meat_meals_per_week n);
             ("local_food_percentage", num_col (uniform "local_food_percentage" 0 100) n);
             ("organic_food_percentage", num_col (uniform "organic_food_percentage" 0 100) n);
             ("waste_kg_per_week", num_col waste_kg_per_week n);
             ("recycling_percentage", num_col recycling_percentage n);
             ("composting", num_col (choice "composting" [0; 1] 0) n);
             ("carbon_footprint", num_col carbon_footprint n)] |}.

End Synthetic.

(** *** [preprocess_data(df, is_training=True)] and [train_models]

    The fitting algorithms of the four regressors, the fold scores of
    [cross_val_score], the shuffled permutation of [train_test_split] with
    [random_state=42] and the float square root are parameters; the
    DataFrame bookkeeping and scikit-learn's input validation are written
    out.  On an exception the partial updates of [self] are not kept. *)

Section Training.
Variable fit_regressor : string -> list (list Q) -> list Q -> regressor.
Variable cv_r2_scores : string -> list (list Q) -> list Q -> list Q.
Variable permutation : nat -> list nat.
Variable sqrt : Q -> Q.

Definition is_str (c : cell) : bool := match c with CStr _ => true | CNum _ => false end.
Definition is_num (c : cell) : bool := negb (is_str c).

Definition cell_ltb (a b : cell) : bool :=
  match a, b with
  | CNum x, CNum y => Qltb x y
  | CStr x, CStr y => String.ltb x y
  | _, _ => false
  end.

Fixpoint insert_uniq (x : cell) (l : list cell) : list cell :=
  match l with
  | [] => [x]
  | y :: l' =>
      if cell_eqb x y then l
      else if cell_ltb x y then x :: l
      else y :: insert_uniq x l'
  end.

(** [LabelEncoder().fit_transform(col)]: [classes_] is the sorted set of
    values; sorting mixed strings and numbers raises [TypeError]. *)
Definition label_fit_transform (col : list cell) : result (list cell * list cell) :=
  if (forallb is_str col || forallb is_num col)%bool then
    let classes := fold_left (fun acc x => insert_uniq x acc) col [] in
    enc <- map_result (label_transform classes) col ;;
    Ok (classes, enc)
  else Error (TypeError "'<' not supported between instances of 'str' and 'float'").

Definition mean (l : list Q) : Q := q_sum l / inject_Z (Z.of_nat (length l)).

(** [StandardScaler().fit(X)], [X] given by columns over [nrows] rows. *)
Definition standard_scaler_fit (nrows : nat) (cols : list (list Q)) : result scaler :=
  match nrows, cols with
  | O, _ => Error (ValueError
      "Found array with 0 sample(s) while a minimum of 1 is required by StandardScaler.")
  | _, [] => Error (ValueError
      "Found array with 0 feature(s) while a minimum of 1 is required by StandardScaler.")
  | _, _ =>
      let means := map mean cols in
      let vars := map (fun '(c, m) => mean (map (fun x => (x - m) * (x - m)) c))
                      (combine cols means) in
      Ok {| mean_ := means;
            scale_ := map (fun v => if Qeq_bool v 0 then 1 else sqrt v) vars |}
  end.

Definition scaler_transform (sc : scaler) (cols : list (list Q)) : list (list Q) :=
  map (fun '(c, (m, s)) => map (fun x => (x - m) / s) c)
      (combine cols (combine (mean_ sc) (scale_ sc))).

Definition preprocess_train (b : bundle) (df : dataframe) : result (bundle * dataframe) :=
  st <- fold_left
          (fun acc col =>
             st <- acc ;;
             let '(b, df) := st in
             match dict_get (df_cols df) col with
             | Some values =>
                 fitted <- label_fit_transform values ;;
                 let '(classes, enc) := fitted in
                 Ok ({| models := models b; scalers := scalers b;
                        encoders := dict_set (encoders b) col classes;
                        feature_names := feature_names b |},
                     {| df_nrows := df_nrows df; df_cols := dict_set (df_cols df) col enc |})
             | None => Ok (b, df)
             end)
          ["location_type"; "vehicle_type"] (Ok (b, df)) ;;
  let '(b, df) := st in
  let feature_cols :=
    filter (fun c => negb (String.eqb c "carbon_footprint")) (map fst (df_cols df)) in
  cols <- map_result (fun c => dict_index (df_cols df) c) feature_cols ;;
  cols <- map_result (map_result as_float) cols ;;
  sc <- standard_scaler_fit (df_nrows df) cols ;;
  let scaled := scaler_transform sc cols in
  Ok ({| models := models b; scalers := dict_set (scalers b) "features" sc;
         encoders := encoders b; feature_names := feature_cols |},
      {| df_nrows := df_nrows df;
         df_cols := fold_left (fun c '(name, xs) => dict_set c name (map CNum xs))
                              (combine feature_cols scaled) (df_cols df) |}).

(** [train_test_split(X, y, test_size=0.2, random_state=42)] on row
    indices: [n_test = ceil(0.2 n)], an empty train set raises. *)
Definition split_indices (n : nat) : result (list nat * list nat) :=
  let n_test := Z.to_nat (Qceiling (0.2 * inject_Z (Z.of_nat n))) in
  let n_train := (n - n_test)%nat in
  if Nat.eqb n_train 0 then
    Error (ValueError
      "With n_samples, test_size=0.2 and train_size=None, the resulting train set will be empty.")
  else
    let perm := permutation n in
    Ok (firstn n_train (skipn n_test perm), firstn n_test perm).

Record metrics := { mse : Q; rmse : Q; r2 : Q; cv_mean : Q; cv_std : Q }.

Definition mean_squared_error (ys ps : list Q) : Q :=
  mean (map (fun '(y, p) => (y - p) * (y - p)) (combine ys ps)).

(** [r2_score], a constant [y_true] scoring 1 when matched exactly, else 0. *)
Definition r2_score (ys ps : list Q) : Q :=
  let my := mean ys in
  let ss_res := q_sum (map (fun '(y, p) => (y - p) * (y - p)) (combine ys ps)) in
  let ss_tot := q_sum (map (fun y => (y - my) * (y - my)) ys) in
  if Qeq_bool ss_tot 0 then (if Qeq_bool ss_res 0 then 1 else 0)
  else 1 - ss_res / ss_tot.

(** [cross_val_score(model, X, y, cv=5, scoring='r2')]: five folds need five
    samples. *)
Definition cross_val_score (name : string) (xs : list (list Q)) (ys : list Q)
    : result (list Q) :=
  if Nat.ltb (length xs) 5 then
    Error (ValueError
      "Cannot have number of splits n_splits=5 greater than the number of samples.")
  else Ok (cv_r2_scores name xs ys).

Definition model_variants :=
  ["random_forest"; "gradient_boosting"; "xgboost"; "lightgbm"].

Definition rows_of (nrows : nat) (cols : list (list Q)) : list (list Q) :=
  map (fun i => map (fun c => nth i c 0) cols) (seq 0 nrows).

Definition train_models (b : bundle) (df : dataframe)
    : result (bundle * list (string * metrics)) :=
  st <- preprocess_train b df ;;
  let '(b, df_processed) := st in
  let x_cols := filter (fun '(c, _) => negb (String.eqb c "carbon_footprint"))
                       (df_cols df_processed) in
  y_cells <- dict_index (df_cols df_processed) "carbon_footprint" ;;
  ys <- map_result as_float y_cells ;;
  x_vals <- map_result (fun '(_, c) => map_result as_float c) x_cols ;;
  let xs := rows_of (df_nrows df_processed) x_vals in
  split <- split_indices (df_nrows df_processed) ;;
  let '(train_idx, test_idx) := split in
  let pick {A} (l : list A) (d : A) idx := map (fun i => nth i l d) idx in
  let x_train := pick xs [] train_idx in
  let y_train := pick ys 0 train_idx in
  let x_test := pick xs [] test_idx in
  let y_test := pick ys 0 test_idx in
  fold_left
    (fun acc name =>
       st <- acc ;;
       let '(b, results) := st in
       let model := fit_regressor name x_train y_train in
       let y_pred := map model x_test in
       let m := mean_squared_error y_test y_pred in
       cv <- cross_val_score name x_train y_train ;;
       let cvm := mean cv in
       Ok ({| models := dict_set (models b) name model; scalers := scalers b;
              encoders := encoders b; feature_names := feature_names b |},
           dict_set results name
             {| mse := m; rmse := sqrt m; r2 := r2_score y_test y_pred;
                cv_mean := cvm;
                cv_std := sqrt (mean (map (fun s => (s - cvm) * (s - cvm)) cv)) |}))
    model_variants (Ok (b, [])).

End Training.

End Predictor.

(** ** More of the engine: tips, ROI, benchmarks, pattern analysis *)

Module CalculatorAdvice.
Import Calculator.

(** [CarbonFootprintCalculator.get_recommendations]: missing categories read
    as 0; the first five of the collected tips. *)
Definition get_recommendations (footprint_data : list (string * Q)) : list string :=
  let block (key : string) (threshold : Q) (tips : list string) :=
    if Qltb threshold (dict_get_default footprint_data key 0) then tips else [] in
  firstn 5
    (block "transportation" 100
       ["Consider using public transportation or carpooling";
        "Switch to an electric or hybrid vehicle";
        "Work from home when possible to reduce commuting";
        "Combine multiple errands into one trip"]
     ++ block "energy" 200
       ["Switch to renewable energy sources";
        "Improve home insulation to reduce heating/cooling needs";
        "Use energy-efficient appliances";
        "Install LED lighting throughout your home"]
     ++ block "food" 150
       ["Reduce meat consumption, especially beef and lamb";
        "Buy local and seasonal produce";
        "Minimize food waste through meal planning";
        "Consider plant-based alternatives"]
     ++ block "waste" 50
       ["Increase recycling and composting";
        "Reduce single-use items";
        "Buy products with minimal packaging";
        "Donate or sell items instead of throwing them away"])%list.

End CalculatorAdvice.

Module EngineExtras.
Import Recommendations.

(** [get_seasonal_recommendations] *)
Definition seasonal_recs : list (string * list string) :=
  [("winter",
     ["Optimize heating efficiency - lower thermostat by 2°F";
      "Use draft stoppers and weatherstripping";
      "Take advantage of natural sunlight for heating";
      "Wear layers instead of increasing heat"]);
   ("spring",
     ["Start a garden to grow your own vegetables";
      "Begin cycling or walking as weather improves";
      "Clean and maintain HVAC systems";
      "Plan energy-efficient home improvements"]);
   ("summer",
     ["Use fans instead of air conditioning when possible";
      "Plan local vacations to reduce travel emissions";
      "Harvest rainwater for garden irrigation";
      "Use natural ventilation during cooler hours"]);
   ("fall",
     ["Prepare home for winter efficiency";
      "Preserve seasonal foods to reduce winter transport emissions";
      "Switch to renewable energy before peak heating season";
      "Insulate pipes and water heater"])].

Definition season_tips (season : string) : list string :=
  dict_get_default seasonal_recs season [].

Definition get_seasonal_recommendations (current_month : Z) : list string :=
  if existsb (Z.eqb current_month) [12; 1; 2]%Z then season_tips "winter"
  else if existsb (Z.eqb current_month) [3; 4; 5]%Z then season_tips "spring"
  else if existsb (Z.eqb current_month) [6; 7; 8]%Z then season_tips "summer"
  else season_tips "fall".

(** [generate_weekly_tips] *)
Definition weekly_tips_db : list (string * list string) :=
  [("transportation",
     ["Try walking or biking for trips under 2 miles";
      "Plan your errands to minimize driving";
      "Check your tire pressure - properly inflated tires improve fuel efficiency";
      "Consider carpooling with colleagues or neighbors"]);
   ("energy",
     ["Unplug chargers and electronics when not in use";
      "Use cold water for washing clothes";
      "Open curtains during sunny days for natural heating";
      "Set your water heater to 120°F (49°C)"]);
   ("food",
     ["Try one new plant-based recipe this week";
      "Buy only what you need to reduce food waste";
      "Choose seasonal fruits and vegetables";
      "Start a small herb garden on your windowsill"]);
   ("waste",
     ["Bring reusable bags when shopping";
      "Use both sides of paper for notes";
      "Donate clothes instead of throwing them away";
      "Start separating compostable materials"])].

(** [max(pairs, key=lambda x: x[1])]: the first pair of maximal value;
    [ValueError] on an empty sequence. *)
Definition max_by_value (pairs : list (string * Q)) : result (string * Q) :=
  match pairs with
  | [] => Error (ValueError "max() arg is an empty sequence")
  | x :: xs => Ok (fold_left (fun best y => if Qltb (snd best) (snd y) then y else best) xs x)
  end.

(** [tips[week % len(tips)]]; the tip tables are non-empty, so the modulus
    is never zero. *)
Definition tip_at (tips : list string) (week : Z) : result string :=
  match nth_error tips (Z.to_nat (Z.modulo week (Z.of_nat (length tips)))) with
  | Some tip => Ok tip
  | None => Error (IndexError "list index out of range")
  end.

(** [current_month] is [datetime.now().month], read by the method. *)
Definition generate_weekly_tips (user_footprint : list (string * Q))
    (week_number current_month : Z) : result (list string) :=
  highest <- max_by_value
               (filter (fun '(k, _) => negb (String.eqb k "total")) user_footprint) ;;
  category_tips <- dict_index weekly_tips_db (fst highest) ;;
  tip1 <- tip_at category_tips week_number ;;
  tip2 <- tip_at (get_seasonal_recommendations current_month) week_number ;;
  Ok [tip1; tip2].

(** The Recommendations page's call: [avg_footprint] when there is recent
    data, else the fallback [{'total': 20}]. *)
Definition page_weekly_tips (avg_footprint : option (list (string * Q)))
    (current_week current_month : Z) : result (list string) :=
  generate_weekly_tips
    (match avg_footprint with Some fp => fp | None => [("total", 20)] end)
    current_week current_month.

(** [calculate_roi_recommendations]: the added dict entries. *)
Record roi := {
  upfront_cost : Z;
  annual_savings : Q;
  payback_years : Q;
  roi_5year : Q
}.

Definition cost_estimates : list (string * Z) :=
  [("switch_to_electric", 25000); ("renewable_energy", 15000);
   ("efficient_appliances", 2000); ("better_insulation", 5000);
   ("programmable_thermostat", 200); ("led_lighting", 300)]%Z.

Definition carbon_price : Q := 50.

(** Each recommendation paired with the ROI entries the loop adds to it
    ([None] when it adds none); [annual_income] is not read. *)
Definition calculate_roi_recommendations (recommendations : list recommendation)
    : result (list (recommendation * option roi)) :=
  Predictor.map_result
    (fun r =>
       action_key <- _extract_action_key (rec_text r) (lower (rec_category r)) ;;
       match dict_get cost_estimates action_key with
       | Some cost =>
           let savings := inject_Z (Z.abs (impact_estimate r)) * (carbon_price / 1000) in
           if Qltb 0 savings then
             Ok (r, Some {| upfront_cost := cost; annual_savings := savings;
                            payback_years := inject_Z cost / savings;
                            roi_5year := (savings * 5 - inject_Z cost) / inject_Z cost * 100 |})
           else Ok (r, None)
       | None => Ok (r, None)
       end)
    recommendations.

(** [benchmark_against_peers]; [user_demographics] is not read. *)
Record comparison := {
  cmp_value : Q;
  cmp_difference : Q;
  cmp_percentage : Q;
  cmp_status : string
}.

Definition benchmarks : list (string * Q) :=
  [("global_average", 4800); ("us_average", 16000); ("eu_average", 8500);
   ("target_2030", 2300)].

Definition benchmark_against_peers (user_footprint : list (string * Q))
    : list (string * comparison) :=
  let user_annual := dict_get_default user_footprint "total" 0 * 365 in
  map (fun '(name, value) =>
         let difference := user_annual - value in
         (name, {| cmp_value := value; cmp_difference := difference;
                   cmp_percentage := if Qltb 0 value then difference / value * 100 else 0;
                   cmp_status := if Qltb 0 difference then "above" else "below" |}))
      benchmarks.

End EngineExtras.

Module PatternAnalysis.

(** A row of the history frame.  [date] is the calendar date
    (year, month, day) that [pd.to_datetime] parses from the row's date. *)
Record history_row := {
  date : Z * Z * Z;
  transportation_emissions : Q;
  energy_emissions : Q;
  food_emissions : Q;
  waste_emissions : Q;
  total_emissions : Q
}.

Record pattern_analysis := {
  patterns : list string;
  opportunities : list string
}.

(** [.dt.day_name()] of a proleptic Gregorian date (Sakamoto's method). *)
Definition day_name (ymd : Z * Z * Z) : string :=
  let '(y, m, d) := ymd in
  let t := nth (Z.to_nat (m - 1)) [0; 3; 2; 5; 0; 3; 5; 1; 4; 6; 2; 4]%Z 0%Z in
  let y' := if Z.ltb m 3 then (y - 1)%Z else y in
  let w := Z.modulo (y' + y' / 4 - y' / 100 + y' / 400 + t + d) 7 in
  nth (Z.to_nat w)
    ["Sunday"; "Monday"; "Tuesday"; "Wednesday"; "Thursday"; "Friday"; "Saturday"]
    "".

(** [Series.mean()] *)
Definition series_mean (l : list Q) : Q := Predictor.mean l.

(** [max(d, key=d.get)] on a non-empty dict: the first key of maximal value. *)
Definition argmax_first (x : string * Q) (xs : list (string * Q)) : string :=
  fst (fold_left (fun best y => if Qltb (snd best) (snd y) then y else best) xs x).

(** [Series.idxmin()]: the first label of minimal value. *)
Definition argmin_first (x : string * Q) (xs : list (string * Q)) : string :=
  fst (fold_left (fun best y => if Qltb (snd y) (snd best) then y else best) xs x).

Fixpoint insert_str (x : string) (l : list string) : list string :=
  match l with
  | [] => [x]
  | y :: l' =>
      if String.eqb x y then l
      else if String.ltb x y then x :: l
      else y :: insert_str x l'
  end.

(** [groupby('day_of_week')['total_emissions'].mean()]: one entry per
    weekday present, keys in sorted order. *)
Definition daily_average (history : list history_row) : list (string * Q) :=
  let names := fold_left (fun acc r => insert_str (day_name (date r)) acc) history [] in
  map (fun n => (n, series_mean (map total_emissions
                    (filter (fun r => String.eqb (day_name (date r)) n) history))))
      names.

(** [analyze_user_pattern] *)
Definition analyze_user_pattern (footprint_history : list history_row)
    : pattern_analysis :=
  match footprint_history with
  | [] => {| patterns := []; opportunities := [] |}
  | _ =>
      let avg_transport := series_mean (map transportation_emissions footprint_history) in
      let avg_energy := series_mean (map energy_emissions footprint_history) in
      let avg_food := series_mean (map food_emissions footprint_history) in
      let avg_waste := series_mean (map waste_emissions footprint_history) in
      let highest_category :=
        argmax_first ("transportation", avg_transport)
          [("energy", avg_energy); ("food", avg_food); ("waste", avg_waste)] in
      let p1 := ["Your highest emissions come from " ++ highest_category] in
      let '(p2, o2) :=
        if Nat.leb 7 (length footprint_history) then
          let totals := map total_emissions footprint_history in
          let recent_avg := series_mean (Predictor.last_n 7 totals) in
          let older_avg := series_mean (firstn 7 totals) in
          if Qltb (older_avg * 1.1) recent_avg then
            (["Your emissions have been increasing recently"],
             ["Focus on reducing daily activities that contribute most to emissions"])
          else if Qltb recent_avg (older_avg * 0.9) then
            (["Great! Your emissions have been decreasing"], [])
          else (["Your emissions have been relatively stable"], [])
        else ([], []) in
      let '(p3, o3) :=
        if Nat.leb 14 (length footprint_history) then
          match daily_average footprint_history with
          | [] => ([], [])
          | x :: xs =>
              let highest_day := argmax_first x xs in
              let lowest_day := argmin_first x xs in
              let avg_of n := dict_get_default (x :: xs) n 0 in
              (["Your highest emission day is typically " ++ highest_day;
                "Your lowest emission day is typically " ++ lowest_day],
               if Qltb (avg_of lowest_day * 1.5) (avg_of highest_day)
               then ["Try to replicate your " ++ lowest_day ++ " habits on " ++ highest_day]
               else [])
          end
        else ([], []) in
      {| patterns := (p1 ++ p2 ++ p3)%list; opportunities := (o2 ++ o3)%list |}
  end.

End PatternAnalysis.

Module FeatureImportance.
Import Predictor.

(** [sorted(d.items(), key=lambda x: x[1], reverse=True)]: stable, into
    descending value order. *)
Fixpoint insert_by_value (x : string * Q) (l : list (string * Q)) : list (string * Q) :=
  match l with
  | [] => [x]
  | y :: l' => if Qltb (snd y) (snd x) then x :: y :: l' else y :: insert_by_value x l'
  end.

Definition sort_by_value_desc (l : list (string * Q)) : list (string * Q) :=
  fold_left (fun acc x => insert_by_value x acc) l [].

(** [get_feature_importance]; [feature_importances_ model_name] is the
    [feature_importances_] attribute of the fitted model, [None] when the
    model has none. *)
Definition get_feature_importance (b : bundle)
    (feature_importances_ : string -> option (list Q)) (model_name : string)
    : result (list (string * Q)) :=
  match dict_get (models b) model_name with
  | None => Error (ValueError ("Model " ++ model_name ++ " not trained yet"))
  | Some _ =>
      match feature_importances_ model_name with
      | None => Ok []
      | Some importances =>
          let importance_dict :=
            fold_left (fun d '(k, v) => dict_set d k v)
                      (combine (feature_names b) importances) [] in
          Ok (sort_by_value_desc importance_dict)
      end
  end.

End FeatureImportance.

(** * Properties *)

Module CalculatorFacts.
Import Calculator.

(** C1: the ['total'] entry of [calculate_total_footprint] is the exact sum
    of the four category values computed from the same input, a category
    absent from the input counting as zero. *)
Theorem total_is_sum_of_categories (user_data : activity_input) :
  exists total,
    dict_get (calculate_total_footprint user_data) "total" = Some total /\
    total ==
      category_or_zero (ui_transportation user_data) calculate_transportation_footprint
      + category_or_zero (ui_energy user_data) calculate_energy_footprint
      + category_or_zero (ui_food user_data) calculate_food_footprint
      + category_or_zero (ui_waste user_data) calculate_waste_footprint.
Proof.
  destruct user_data as [t e f w].
  destruct t, e, f, w; cbn; eexists; (split; [reflexivity|]);
    unfold py_sum; simpl; ring.
Qed.

End CalculatorFacts.

Module RecommendationFacts.
Import Recommendations.

Definition footprint_keys :=
  ["transportation"; "energy"; "food"; "waste"; "total"].

Definition category_titles := ["Transportation"; "Energy"; "Food"; "Waste"].

Lemma key_lt_asym (a b : Z * Z) : key_lt a b = true -> key_lt b a = false.
Proof.
  destruct a as [a1 a2], b as [b1 b2]; unfold key_lt; simpl.
  intros H; apply Bool.orb_true_iff in H.
  rewrite Bool.orb_false_iff, Bool.andb_false_iff, !Z.ltb_ge, Z.eqb_neq.
  destruct H as [H | H].
  - apply Z.ltb_lt in H; lia.
  - apply Bool.andb_true_iff in H; destruct H as [H1 H2].
    apply Z.eqb_eq in H1; apply Z.ltb_lt in H2; lia.
Qed.

Lemma insert_desc_sorted (x : recommendation) (l : list recommendation) :
  sorted_desc l -> sorted_desc (insert_desc x l).
Proof.
  unfold sorted_desc; induction l as [|y l IH]; intros Hs; simpl.
  - repeat constructor.
  - destruct (key_lt (sort_key y) (sort_key x)) eqn:Hyx.
    + constructor; [exact Hs|].
      constructor; apply key_lt_asym; exact Hyx.
    + apply Sorted_inv in Hs; destruct Hs as [Hs Hhd].
      constructor; [apply IH; exact Hs|].
      destruct l as [|z l]; simpl.
      * constructor; exact Hyx.
      * destruct (key_lt (sort_key z) (sort_key x)); constructor.
        -- exact Hyx.
        -- inversion Hhd; assumption.
Qed.

Lemma sort_desc_sorted (l : list recommendation) : sorted_desc (sort_desc l).
Proof.
  unfold sort_desc.
  assert (H : forall acc, sorted_desc acc ->
            sorted_desc (fold_left (fun acc x => insert_desc x acc) l acc)).
  { induction l as [|x l IH]; intros acc Hacc; simpl; [exact Hacc|].
    apply IH, insert_desc_sorted, Hacc. }
  apply H; constructor.
Qed.

Lemma insert_desc_forall (P : recommendation -> Prop) x l :
  P x -> Forall P l -> Forall P (insert_desc x l).
Proof.
  intros Hx; induction l as [|y l IH]; intros Hl; simpl.
  - repeat constructor; exact Hx.
  - inversion Hl; subst.
    destruct (key_lt (sort_key y) (sort_key x)); repeat constructor; auto.
Qed.

Lemma sort_desc_forall (P : recommendation -> Prop) l :
  Forall P l -> Forall P (sort_desc l).
Proof.
  unfold sort_desc.
  assert (H : forall acc, Forall P acc -> Forall P l ->
            Forall P (fold_left (fun acc x => insert_desc x acc) l acc)).
  { induction l as [|x l IH]; intros acc Hacc Hl; simpl; [exact Hacc|].
    inversion Hl; subst.
    apply IH; [apply insert_desc_forall|]; assumption. }
  intros Hl; apply H; [constructor | exact Hl].
Qed.

Lemma sorted_firstn {A} (R : A -> A -> Prop) n (l : list A) :
  Sorted R l -> Sorted R (firstn n l).
Proof.
  revert l; induction n as [|n IH]; intros l Hs; simpl; [constructor|].
  destruct l as [|x l]; [constructor|].
  apply Sorted_inv in Hs; destruct Hs as [Hs Hhd].
  constructor; [apply IH, Hs|].
  destruct n, l; simpl; try constructor.
  inversion Hhd; assumption.
Qed.

Lemma Forall_firstn {A} (P : A -> Prop) n (l : list A) :
  Forall P l -> Forall P (firstn n l).
Proof.
  revert l; induction n as [|n IH]; intros l Hl; simpl; [constructor|].
  destruct l; [constructor|]; inversion Hl; subst; constructor; auto.
Qed.

Definition titled (k : string) (r : recommendation) : Prop :=
  rec_category r = title k.

Lemma category_step_ok (k : string) (emissions : Q) :
  In k footprint_keys ->
  exists l, category_step k emissions = Ok l /\
            Forall (fun r => In (rec_category r) category_titles) l.
Proof.
  unfold footprint_keys; simpl.
  intros [<- | [<- | [<- | [<- | [<- | []]]]]];
    unfold category_step; cbn;
    try (exists []; split; [reflexivity | constructor]);
    destruct (Qltb _ emissions); cbn;
    try destruct (Qltb _ emissions); cbn;
    eexists; (split; [reflexivity|]);
    repeat apply Forall_cons; try apply Forall_nil; vm_compute; tauto.
Qed.

Lemma collect_ok (fp : list (string * Q)) :
  (forall k, In k (map fst fp) -> In k footprint_keys) ->
  exists l, collect fp = Ok l /\
            Forall (fun r => In (rec_category r) category_titles) l.
Proof.
  induction fp as [|[k e] fp IH]; intros Hk; simpl.
  - exists []; split; [reflexivity | constructor].
  - destruct (category_step_ok k e) as [l1 [H1 F1]]; [apply Hk; left; reflexivity|].
    destruct IH as [l2 [H2 F2]]; [intros k' Hin; apply Hk; right; exact Hin|].
    rewrite H1; simpl; rewrite H2; simpl.
    exists (l1 ++ l2)%list; split; [reflexivity|].
    apply Forall_app; split; assumption.
Qed.

(** C2: for a footprint whose keys are the breakdown's keys,
    [get_personalized_recommendations] returns at most 8 recommendations,
    none for the ['total'] pseudo-category (each is one of the four
    title-cased categories), sorted descending by
    [(priority, |impact_estimate|)]. *)
Theorem recommendations_top8_sorted (user_footprint : list (string * Q)) :
  (forall k, In k (map fst user_footprint) -> In k footprint_keys) ->
  exists l,
    get_personalized_recommendations user_footprint = Ok l /\
    (length l <= 8)%nat /\
    Forall (fun r => rec_category r <> "Total" /\
                     In (rec_category r) category_titles) l /\
    sorted_desc l.
Proof.
  intros Hk.
  destruct (collect_ok user_footprint Hk) as [recs [Hc Hf]].
  unfold get_personalized_recommendations; rewrite Hc; cbn [bind].
  eexists; split; [reflexivity|].
  split; [apply firstn_le_length|].
  split.
  - apply Forall_firstn, sort_desc_forall.
    eapply Forall_impl; [|exact Hf].
    intros r Hin; split; [|exact Hin].
    unfold category_titles in Hin; simpl in Hin.
    intros Heq; rewrite Heq in Hin.
    repeat (destruct Hin as [Hin | Hin]; [discriminate Hin|]); exact Hin.
  - apply sorted_firstn, sort_desc_sorted.
Qed.

Lemma recommendations_top8_sorted_witness :
  exists l,
    get_personalized_recommendations
      [("transportation", 150); ("energy", 50); ("food", 50); ("waste", 10);
       ("total", 260)] = Ok l /\
    (length l <= 8)%nat /\
    Forall (fun r => rec_category r <> "Total" /\
                     In (rec_category r) category_titles) l /\
    sorted_desc l.
Proof.
  apply recommendations_top8_sorted.
  intros k Hk; simpl in Hk; unfold footprint_keys; simpl; tauto.
Defined.

(** A phase selects the first [k] recommendations of difficulty [d], and its
    [expected_reduction] is the sum of [|impact_estimate|] over them. *)
Definition phase_selects (recommendations : list recommendation) (p : phase)
    (d : string) (k : nat) : Prop :=
  actions p = firstn k (with_difficulty d recommendations) /\
  (length (actions p) <= k)%nat /\
  Forall (fun r => difficulty r = d) (actions p) /\
  expected_reduction p =
    fold_right Z.add 0%Z (map (fun r => Z.abs (impact_estimate r)) (actions p)).

Lemma sum_abs_impact_acc (l : list recommendation) (a : Z) :
  fold_left (fun acc r => acc + Z.abs (impact_estimate r))%Z l a =
  (a + fold_right Z.add 0 (map (fun r => Z.abs (impact_estimate r)) l))%Z.
Proof.
  revert a; induction l as [|r l IH]; intros a; simpl; [lia|].
  rewrite IH; lia.
Qed.

Lemma make_phase_selects (recommendations : list recommendation)
    (label d : string) (k : nat) :
  phase_selects recommendations
    (make_phase label (firstn k (with_difficulty d recommendations))) d k.
Proof.
  unfold phase_selects, make_phase; simpl.
  split; [reflexivity|].
  split; [apply firstn_le_length|].
  split.
  - apply Forall_firstn; unfold with_difficulty.
    apply Forall_forall; intros r Hr.
    apply filter_In in Hr; destruct Hr as [_ Hr].
    apply String.eqb_eq; exact Hr.
  - unfold sum_abs_impact; apply sum_abs_impact_acc.
Qed.

(** C3: [generate_action_plan] puts the first (at most) 3 Low-difficulty
    recommendations in weeks 1-2, the first (at most) 3 Medium ones in weeks
    3-6 and the first (at most) 2 High ones in weeks 7-12; each phase's
    [expected_reduction] is the sum of [|impact_estimate|] over exactly its
    actions, and [total_potential_reduction] is the sum of the three. *)
Theorem action_plan_phases (recommendations : list recommendation) :
  let plan := generate_action_plan recommendations in
  phase_selects recommendations (weeks_1_2 plan) "Low" 3 /\
  phase_selects recommendations (weeks_3_6 plan) "Medium" 3 /\
  phase_selects recommendations (weeks_7_12 plan) "High" 2 /\
  total_potential_reduction plan =
    (expected_reduction (weeks_1_2 plan) + expected_reduction (weeks_3_6 plan)
     + expected_reduction (weeks_7_12 plan))%Z.
Proof.
  cbv zeta; unfold generate_action_plan; cbn [weeks_1_2 weeks_3_6 weeks_7_12
    total_potential_reduction].
  split; [apply make_phase_selects|].
  split; [apply make_phase_selects|].
  split; [apply make_phase_selects|].
  simpl; lia.
Qed.

(** The action-key extraction as the spec describes it: a case-insensitive
    substring match, both sides lowercased. *)
Definition spec_extract_action_key (recommendation category : string)
    : result string :=
  mapping <- dict_index action_mapping category ;;
  let ci := map (fun '(k, a) => (lower k, a)) mapping in
  match first_match (lower recommendation) ci with
  | Some action => Ok action
  | None =>
      match map snd mapping with
      | action :: _ => Ok action
      | [] => Error (IndexError "list index out of range")
      end
  end.

Lemma char_lower_not_L (c : ascii) : Ascii.eqb "L"%char (char_lower c) = false.
Proof.
  destruct c as [[] [] [] [] [] [] [] []]; vm_compute; reflexivity.
Qed.

Lemma lowered_text_has_no_LED (s : string) : str_contains "LED" (lower s) = false.
Proof.
  induction s as [|c s IH]; [reflexivity|].
  change (lower (String c s)) with (String (char_lower c) (lower s)).
  change (str_contains "LED" (String (char_lower c) (lower s))) with
    (prefixb "LED" (String (char_lower c) (lower s)) || str_contains "LED" (lower s))%bool.
  rewrite IH, Bool.orb_false_r.
  cbn [prefixb]; rewrite char_lower_not_L; reflexivity.
Qed.

(** C9 (the keyword ['LED'] of the energy table is not lowercased): the
    text "Replace incandescent bulbs with LED lighting" contains "LED" yet
    [_extract_action_key] maps it to the fallback ['renewable_energy']
    instead of ['led_lighting'], which the case-insensitive match returns;
    in fact ['LED'] occurs in no lowercased text. *)
Theorem extract_action_key_misses_LED :
  _extract_action_key "Replace incandescent bulbs with LED lighting" "energy"
    = Ok "renewable_energy" /\
  spec_extract_action_key "Replace incandescent bulbs with LED lighting" "energy"
    = Ok "led_lighting" /\
  (forall text, str_contains "LED" (lower text) = false).
Proof.
  split; [vm_compute; reflexivity|].
  split; [vm_compute; reflexivity|].
  exact lowered_text_has_no_LED.
Qed.

End RecommendationFacts.

Module ForecastFacts.
Import Predictor.

Lemma last_or_error_nonempty (h : list Q) :
  h <> [] -> list_last_or_error h = Ok (last h 0).
Proof.
  intros Hne; destruct (exists_last Hne) as [h' [a ->]].
  unfold list_last_or_error; rewrite rev_app_distr, last_last; reflexivity.
Qed.

Lemma py_max_0_nonneg (x : Q) : 0 <= py_max 0 x.
Proof.
  unfold py_max; destruct (Qle_bool x 0) eqn:H; [apply Qle_refl|].
  apply Qlt_le_weak, Qnot_le_lt; intros Hle.
  apply Qle_bool_iff in Hle; congruence.
Qed.

(** C10: on an empty history [predict_future_trend] takes the low-data
    branch and [historical_data[-1]] raises [IndexError], whatever
    [days_ahead]. *)
Theorem forecast_empty_history_index_error (days_ahead : Z) (noise : nat -> Q) :
  predict_future_trend [] days_ahead noise
    = Error (IndexError "list index out of range").
Proof. reflexivity. Qed.

(** C4, as stated, fails: an empty history raises, and a negative
    [days_ahead] cannot give that many values. *)
Lemma forecast_low_data_counterexample :
  (~ exists l, predict_future_trend [] 3 (fun _ => 0) = Ok l) /\
  (exists l, predict_future_trend [5] (-1) (fun _ => 0) = Ok l /\
             Z.of_nat (length l) <> (-1)%Z).
Proof.
  split.
  - intros [l Hl]; discriminate Hl.
  - exists []; split; [reflexivity | simpl; lia].
Qed.

Lemma last_in (h : list Q) : h <> [] -> In (last h 0) h.
Proof.
  intros Hne; destruct (exists_last Hne) as [h' [a ->]].
  rewrite last_last; apply in_or_app; right; left; reflexivity.
Qed.

(** C4 (amended): for a non-empty history of fewer than 7 values and
    [days_ahead >= 0], the forecast is exactly [days_ahead] copies of
    [history[-1]], with no error; an empty history raises [IndexError];
    a negative [days_ahead] gives the empty list. *)
Theorem forecast_low_data_flat :
  (forall (history : list Q) (days_ahead : Z) (noise : nat -> Q),
     history <> [] -> (length history < 7)%nat -> (0 <= days_ahead)%Z ->
     exists l, predict_future_trend history days_ahead noise = Ok l /\
               Z.of_nat (length l) = days_ahead /\
               Forall (fun v => v = last history 0) l) /\
  (forall (days_ahead : Z) (noise : nat -> Q),
     predict_future_trend [] days_ahead noise
       = Error (IndexError "list index out of range")) /\
  (forall (history : list Q) (days_ahead : Z) (noise : nat -> Q),
     history <> [] -> (days_ahead < 0)%Z ->
     predict_future_trend history days_ahead noise = Ok []).
Proof.
  split; [|split].
  - intros history days_ahead noise Hne Hlen Hd.
    unfold predict_future_trend.
    replace (Nat.ltb (length history) 7) with true
      by (symmetry; apply Nat.ltb_lt; exact Hlen).
    rewrite last_or_error_nonempty by exact Hne; cbn [bind].
    eexists; split; [reflexivity|].
    split.
    + rewrite repeat_length; lia.
    + apply Forall_forall; intros v Hv; apply repeat_spec in Hv; exact Hv.
  - intros days_ahead noise; reflexivity.
  - intros history days_ahead noise Hne Hd.
    assert (Hz : Z.to_nat days_ahead = 0%nat) by lia.
    unfold predict_future_trend; rewrite Hz.
    destruct (Nat.ltb (length history) 7);
      rewrite last_or_error_nonempty by exact Hne; reflexivity.
Qed.

Lemma forecast_low_data_flat_witness :
  (exists l, predict_future_trend [5; 6] 3 (fun _ => 0) = Ok l /\
             Z.of_nat (length l) = 3%Z /\
             Forall (fun v => v = last [5; 6] 0) l) /\
  predict_future_trend [3; 4; 5; 6; 7; 8; 9; 10] (-2) (fun _ => 1) = Ok [].
Proof.
  destruct forecast_low_data_flat as [Hflat [_ Hneg]]; split.
  - apply Hflat; [discriminate | simpl; lia | lia].
  - apply Hneg; [discriminate | lia].
Defined.

(** C5: the histories the forecast is given are daily total emissions,
    sums of non-negative amounts times positive factors, so they are
    non-negative.  For such a non-empty history and [days_ahead >= 0] the
    forecast has exactly [days_ahead] values, whatever noise is drawn, and
    every value is [>= 0]: from 7 values on by the floor at 0, below 7
    because the values are copies of [history[-1]]. *)
Theorem forecast_length_nonneg (history : list Q) (days_ahead : Z)
    (noise : nat -> Q) :
  history <> [] -> Forall (fun v => 0 <= v) history -> (0 <= days_ahead)%Z ->
  exists l, predict_future_trend history days_ahead noise = Ok l /\
            Z.of_nat (length l) = days_ahead /\
            Forall (fun v => 0 <= v) l.
Proof.
  intros Hne Hnn Hd.
  unfold predict_future_trend.
  rewrite last_or_error_nonempty by exact Hne.
  destruct (Nat.ltb (length history) 7) eqn:Hlt; cbn [bind].
  - eexists; split; [reflexivity|].
    split; [rewrite repeat_length; lia|].
    apply Forall_forall; intros v Hv; apply repeat_spec in Hv; subst.
    exact (proj1 (Forall_forall _ _) Hnn _ (last_in _ Hne)).
  - eexists; split; [reflexivity|].
    split; [rewrite length_map, length_seq; lia|].
    apply Forall_forall; intros v Hv; apply in_map_iff in Hv.
    destruct Hv as [i [<- _]]; apply py_max_0_nonneg.
Qed.

Lemma forecast_length_nonneg_witness :
  (exists l, predict_future_trend [3; 4; 5; 6; 7; 8; 9; 10] 5 (fun _ => -2) = Ok l /\
             Z.of_nat (length l) = 5%Z /\
             Forall (fun v => 0 <= v) l) /\
  (exists l, predict_future_trend [7; 0; 2] 4 (fun _ => 3) = Ok l /\
             Z.of_nat (length l) = 4%Z /\
             Forall (fun v => 0 <= v) l).
Proof.
  split; apply forecast_length_nonneg;
    (discriminate || lia ||
     (repeat constructor; apply Qle_bool_iff; reflexivity)).
Defined.

End ForecastFacts.

Module PredictorFacts.
Import Predictor.

(** The class name of a raised exception. *)
Definition exn_class (e : py_exn) : string :=
  match e with
  | KeyError _ => "KeyError"
  | IndexError _ => "IndexError"
  | ValueError _ => "ValueError"
  | TypeError _ => "TypeError"
  end.

(** A concrete instance of the library parameters used in examples: a
    regressor predicting the training mean (scikit-learn's
    [DummyRegressor]), whose R2 on any fold is 0, the identity shuffle, and
    the integer square root. *)
Definition mean_regressor (_ : string) (_ : list (list Q)) (ys : list Q) : regressor :=
  fun _ => mean ys.
Definition dummy_cv_scores (_ : string) (_ : list (list Q)) (_ : list Q) : list Q :=
  [0; 0; 0; 0; 0].
Definition identity_permutation (n : nat) : list nat := seq 0 n.
Definition isqrt (q : Q) : Q := inject_Z (Z.sqrt (Qfloor q)).

Definition example_draws : draws :=
  {| d_int := fun _ i => Z.of_nat (3 * i + 1); d_real := fun _ i => inject_Z (Z.of_nat i) / 4 |}.

(** The bundle after training on 10 synthetic samples. *)
Definition trained_example : bundle :=
  match generate_synthetic_data example_draws 10 with
  | Ok df =>
      match train_models mean_regressor dummy_cv_scores identity_permutation isqrt
              new_predictor df with
      | Ok (b, _) => b
      | Error _ => new_predictor
      end
  | Error _ => new_predictor
  end.

Lemma trained_example_models :
  map fst (models trained_example) =
    ["random_forest"; "gradient_boosting"; "xgboost"; "lightgbm"].
Proof. vm_compute; reflexivity. Qed.

(** C6, as stated, fails: before training, and for a variant that was
    never trained, [predict_footprint] raises the same [ValueError]; there
    is no [NotTrainedError] or [UnknownVariantError]. *)
Lemma predict_errors_counterexample :
  exists e1 e2,
    predict_footprint new_predictor [] "xgboost" = Error e1 /\
    predict_footprint trained_example [] "svm" = Error e2 /\
    exn_class e1 <> "NotTrainedError" /\
    exn_class e2 <> "UnknownVariantError" /\
    exn_class e1 = exn_class e2.
Proof.
  do 2 eexists; split; [reflexivity|]; split; [vm_compute; reflexivity|].
  vm_compute; repeat split; discriminate.
Qed.

Definition not_trained_msg (name : string) : py_exn :=
  ValueError ("Model " ++ name ++ " not trained yet").

(** C6 (amended): before any training every call of [predict_footprint]
    raises [ValueError("Model <name> not trained yet")], and on any bundle a
    variant name that was never trained raises that same [ValueError]; the
    two conditions are not told apart. *)
Theorem predict_untrained_value_error :
  (forall user_data model_name,
     predict_footprint new_predictor user_data model_name
       = Error (not_trained_msg model_name)) /\
  (forall b user_data model_name,
     dict_get (models b) model_name = None ->
     predict_footprint b user_data model_name = Error (not_trained_msg model_name)).
Proof.
  split.
  - intros user_data model_name; reflexivity.
  - intros b user_data model_name Hnone.
    unfold predict_footprint; rewrite Hnone; reflexivity.
Qed.

Lemma predict_untrained_value_error_witness :
  dict_get (models trained_example) "svm" = None /\
  predict_footprint trained_example [] "svm" = Error (not_trained_msg "svm").
Proof.
  assert (H : dict_get (models trained_example) "svm" = None)
    by (vm_compute; reflexivity).
  split; [exact H|].
  exact (proj2 predict_untrained_value_error trained_example [] "svm" H).
Defined.

(** *** Training on an empty dataset *)

Definition all_empty (cols : list (string * list cell)) : Prop :=
  Forall (fun c => snd c = []) cols.

Lemma all_empty_get (cols : list (string * list cell)) k v :
  all_empty cols -> dict_get cols k = Some v -> v = [].
Proof.
  induction cols as [|[k' v'] cols IH]; intros Hall Hget; [discriminate|].
  inversion Hall as [|x l Hx Hrest]; subst; simpl in Hget.
  destruct (String.eqb k k'); [injection Hget as <-; exact Hx|].
  apply IH; assumption.
Qed.

Lemma all_empty_set (cols : list (string * list cell)) k :
  all_empty cols -> all_empty (dict_set cols k []).
Proof.
  intros Hall; unfold dict_set; destruct (dict_mem cols k).
  - apply Forall_map; eapply Forall_impl; [|exact Hall].
    intros [k' v'] Hv; destruct (String.eqb k k'); simpl; auto.
  - apply Forall_app; split; [exact Hall | repeat constructor].
Qed.

Lemma dict_get_in {V} (d : list (string * V)) k :
  In k (map fst d) -> exists v, dict_get d k = Some v.
Proof.
  induction d as [|[k' v'] d IH]; simpl; [intros []|].
  intros Hin; destruct (String.eqb k k') eqn:E; [eauto|].
  apply IH; destruct Hin as [<- | Hin]; [|exact Hin].
  rewrite String.eqb_refl in E; discriminate.
Qed.

Lemma select_all_empty (cols : list (string * list cell)) (names : list string) :
  all_empty cols -> (forall n, In n names -> In n (map fst cols)) ->
  map_result (fun c => dict_index cols c) names = Ok (map (fun _ => []) names).
Proof.
  intros Hall; induction names as [|n names IH]; intros Hin; [reflexivity|].
  destruct (dict_get_in cols n) as [v Hv]; [apply Hin; left; reflexivity|].
  cbn [map_result]; unfold dict_index at 1; rewrite Hv.
  rewrite (all_empty_get cols n v Hall Hv); cbn [bind].
  rewrite IH by (intros m Hm; apply Hin; right; exact Hm); reflexivity.
Qed.

Lemma as_float_empty_cols (names : list string) :
  map_result (map_result as_float) (map (fun _ => @nil cell) names)
    = Ok (map (fun _ => @nil Q) names).
Proof. induction names as [|n names IH]; simpl; [|rewrite IH]; reflexivity. Qed.

Definition no_samples_error : py_exn :=
  ValueError "Found array with 0 sample(s) while a minimum of 1 is required by StandardScaler.".

(** One step of the categorical-encoding loop keeps a zero-row frame
    empty. *)
Lemma encode_step_empty (b : bundle) (df : dataframe) (col : string) :
  df_nrows df = 0%nat -> all_empty (df_cols df) ->
  exists b' df',
    match dict_get (df_cols df) col with
    | Some values =>
        fitted <- label_fit_transform values ;;
        let '(classes, enc) := fitted in
        Ok ({| models := models b; scalers := scalers b;
               encoders := dict_set (encoders b) col classes;
               feature_names := feature_names b |},
            {| df_nrows := df_nrows df; df_cols := dict_set (df_cols df) col enc |})
    | None => Ok (b, df)
    end = Ok (b', df') /\ df_nrows df' = 0%nat /\ all_empty (df_cols df').
Proof.
  intros Hn Hall.
  destruct (dict_get (df_cols df) col) as [values|] eqn:Hget.
  - rewrite (all_empty_get _ _ _ Hall Hget); cbn.
    do 2 eexists; split; [reflexivity|]; simpl; split; [exact Hn|].
    apply all_empty_set, Hall.
  - do 2 eexists; split; [reflexivity|]; split; assumption.
Qed.

Section EmptyDataset.
Variable fit_regressor : string -> list (list Q) -> list Q -> regressor.
Variable cv_r2_scores : string -> list (list Q) -> list Q -> list Q.
Variable permutation : nat -> list nat.
Variable sqrt : Q -> Q.

Lemma preprocess_train_empty (b : bundle) (df : dataframe) :
  df_nrows df = 0%nat -> all_empty (df_cols df) ->
  preprocess_train sqrt b df = Error no_samples_error.
Proof.
  intros Hn Hall; unfold preprocess_train; cbn [fold_left bind].
  destruct (encode_step_empty b df "location_type" Hn Hall) as [b1 [df1 [E1 [Hn1 Hall1]]]].
  rewrite E1; cbn [bind].
  destruct (encode_step_empty b1 df1 "vehicle_type" Hn1 Hall1) as [b2 [df2 [E2 [Hn2 Hall2]]]].
  rewrite E2; cbn [bind].
  rewrite select_all_empty by
    (exact Hall2 || (intros m Hm; apply filter_In in Hm; apply Hm)).
  cbn [bind]; rewrite as_float_empty_cols; cbn [bind].
  unfold standard_scaler_fit; rewrite Hn2; reflexivity.
Qed.

(** C7 (amended): [train_models] has no empty-dataset check of its own; on
    a dataset with zero rows it fails, for any regressors, with the
    [ValueError] raised by scikit-learn's [StandardScaler] fit. *)
Theorem train_models_empty_value_error (b : bundle) (df : dataframe) :
  df_nrows df = 0%nat -> all_empty (df_cols df) ->
  train_models fit_regressor cv_r2_scores permutation sqrt b df
    = Error no_samples_error.
Proof.
  intros Hn Hall; unfold train_models.
  rewrite preprocess_train_empty by assumption; reflexivity.
Qed.

End EmptyDataset.

Definition empty_dataset : dataframe :=
  match generate_synthetic_data example_draws 0 with
  | Ok df => df
  | Error _ => {| df_nrows := 0; df_cols := [] |}
  end.

Lemma train_models_empty_value_error_witness :
  df_nrows empty_dataset = 0%nat /\ all_empty (df_cols empty_dataset) /\
  train_models mean_regressor dummy_cv_scores identity_permutation isqrt
    new_predictor empty_dataset = Error no_samples_error.
Proof.
  assert (Hn : df_nrows empty_dataset = 0%nat) by reflexivity.
  assert (Hall : all_empty (df_cols empty_dataset))
    by (vm_compute; repeat constructor).
  split; [exact Hn|]; split; [exact Hall|].
  exact (train_models_empty_value_error mean_regressor dummy_cv_scores
           identity_permutation isqrt new_predictor empty_dataset Hn Hall).
Defined.

(** C7, as stated, fails: training on the zero-row synthetic dataset raises
    a [ValueError], not an [EmptyDatasetError]. *)
Lemma train_empty_counterexample :
  exists e,
    train_models mean_regressor dummy_cv_scores identity_permutation isqrt
      new_predictor empty_dataset = Error e /\
    exn_class e = "ValueError" /\ exn_class e <> "EmptyDatasetError".
Proof.
  eexists; split; [vm_compute; reflexivity|].
  split; [reflexivity | discriminate].
Qed.

(** *** Synthetic data *)

Lemma choice_in {A} (d : draws) (name : string) (options : list A) (dflt : A) i :
  options <> [] -> In (choice d name options dflt i) options.
Proof.
  intros Hne; unfold choice; apply nth_In.
  assert (Hlen : (0 < Z.of_nat (length options))%Z)
    by (destruct options; [congruence | simpl; lia]).
  pose proof (Z.mod_pos_bound (d_int d name i) _ Hlen) as [H0 H1].
  lia.
Qed.

Lemma np_maximum_ge (a b : Q) : b <= np_maximum a b.
Proof.
  unfold np_maximum; destruct (Qle_bool b a) eqn:H.
  - apply Qle_bool_iff, H.
  - apply Qle_refl.
Qed.

Definition str_in (domain : list string) (c : cell) : Prop :=
  exists s, c = CStr s /\ In s domain.

Definition num_at_least (lo : Q) (c : cell) : Prop :=
  exists q, c = CNum q /\ lo <= q.

Lemma num_col_length f n : length (num_col f n) = n.
Proof. unfold num_col; rewrite length_map, length_seq; reflexivity. Qed.

Lemma str_col_length f n : length (str_col f n) = n.
Proof. unfold str_col; rewrite length_map, length_seq; reflexivity. Qed.

Lemma str_col_domain (d : draws) (name : string) (domain : list string) n :
  domain <> [] -> Forall (str_in domain) (str_col (choice d name domain "") n).
Proof.
  intros Hne; unfold str_col; apply Forall_map, Forall_forall.
  intros i _; eexists; split; [reflexivity|]; apply choice_in, Hne.
Qed.

(** C8: for every [n >= 1] and every draw of the random generator,
    [generate_synthetic_data n] returns [n] samples (every column has [n]
    values), every [location_type] is one of urban, suburban, rural, every
    [vehicle_type] one of gasoline, diesel, electric, hybrid, and every
    [carbon_footprint] is at least 1000. *)
Theorem synthetic_data_domains (d : draws) (n_samples : Z) :
  (1 <= n_samples)%Z ->
  exists df,
    generate_synthetic_data d n_samples = Ok df /\
    df_nrows df = Z.to_nat n_samples /\
    Forall (fun c => length (snd c) = Z.to_nat n_samples) (df_cols df) /\
    (exists cells, dict_get (df_cols df) "location_type" = Some cells /\
                   Forall (str_in ["urban"; "suburban"; "rural"]) cells) /\
    (exists cells, dict_get (df_cols df) "vehicle_type" = Some cells /\
                   Forall (str_in ["gasoline"; "diesel"; "electric"; "hybrid"]) cells) /\
    (exists cells, dict_get (df_cols df) "carbon_footprint" = Some cells /\
                   Forall (num_at_least 1000) cells).
Proof.
  intros Hn; unfold generate_synthetic_data.
  replace (Z.ltb n_samples 0) with false by (symmetry; apply Z.ltb_ge; lia).
  eexists; split; [reflexivity|]; cbn [df_nrows df_cols].
  split; [reflexivity|].
  split.
  { repeat apply Forall_cons; try apply Forall_nil; cbn [snd];
      first [apply num_col_length | apply str_col_length]. }
  split; [eexists; split; [reflexivity | apply str_col_domain; discriminate]|].
  split; [eexists; split; [reflexivity | apply str_col_domain; discriminate]|].
  eexists; split; [reflexivity|].
  unfold num_col; apply Forall_map, Forall_forall; intros i _.
  eexists; split; [reflexivity|].
  unfold carbon_footprint; apply np_maximum_ge.
Qed.

Lemma synthetic_data_domains_witness :
  exists df,
    generate_synthetic_data example_draws 3 = Ok df /\
    df_nrows df = Z.to_nat 3 /\
    Forall (fun c => length (snd c) = Z.to_nat 3) (df_cols df) /\
    (exists cells, dict_get (df_cols df) "location_type" = Some cells /\
                   Forall (str_in ["urban"; "suburban"; "rural"]) cells) /\
    (exists cells, dict_get (df_cols df) "vehicle_type" = Some cells /\
                   Forall (str_in ["gasoline"; "diesel"; "electric"; "hybrid"]) cells) /\
    (exists cells, dict_get (df_cols df) "carbon_footprint" = Some cells /\
                   Forall (num_at_least 1000) cells).
Proof. apply synthetic_data_domains; lia. Defined.

End PredictorFacts.

(** ** Further properties of the calculator, the engine and the predictor *)

Module CalculatorExtraFacts.
Import Calculator.

Lemma Qplus_nonneg (a b : Q) : 0 <= a -> 0 <= b -> 0 <= a + b.
Proof.
  intros Ha Hb; apply Qle_trans with (0 + 0); [discriminate|].
  apply Qplus_le_compat; assumption.
Qed.

(** A left fold that adds one contribution per element is its
    right-folded sum. *)
Lemma fold_left_additive {A} (step : Q -> A -> Q) (c : A -> Q) :
  (forall acc e, step acc e == acc + c e) ->
  forall l a, fold_left step l a == a + fold_right (fun e s => c e + s) 0 l.
Proof.
  intros Hstep l; induction l as [|e l IH]; intros a; simpl.
  - ring.
  - rewrite IH, Hstep; ring.
Qed.

(** What one energy, food or waste entry adds. *)
Definition factor_contribution (factors : list (string * Q)) (entry : string * Q) : Q :=
  match dict_get factors (fst entry) with
  | Some f => snd entry * f
  | None => 0
  end.

Definition contributions (factors : list (string * Q)) (data : list (string * Q)) : Q :=
  fold_right (fun e s => factor_contribution factors e + s) 0 data.

Lemma by_factor_sum (factors : list (string * Q)) (data : list (string * Q)) :
  calculate_by_factor factors data == contributions factors data.
Proof.
  unfold calculate_by_factor, contributions.
  rewrite (fold_left_additive _ (factor_contribution factors)).
  - ring.
  - intros acc [k x]; unfold factor_contribution; simpl.
    destruct (dict_get factors k); ring.
Qed.

(** What one transportation entry adds. *)
Definition transport_contribution (entry : string * transport_details) : Q :=
  match dict_get transportation_factors (fst entry) with
  | Some f =>
      dict_get_default (snd entry) "distance" 0 *
      dict_get_default (snd entry) "frequency" 1 * f
  | None => 0
  end.

Lemma transport_sum (data : list (string * transport_details)) :
  calculate_transportation_footprint data ==
  fold_right (fun e s => transport_contribution e + s) 0 data.
Proof.
  unfold calculate_transportation_footprint.
  rewrite (fold_left_additive _ transport_contribution).
  - ring.
  - intros acc [k det]; unfold transport_contribution; cbn [fst snd].
    destruct (dict_get transportation_factors k); ring.
Qed.

(** [amount >= 0] for every entry, as a check. *)
Definition nonneg_amounts (d : list (string * Q)) : bool :=
  forallb (fun e => Qle_bool 0 (snd e)) d.

Definition opt_nonneg {D} (o : option D) (ok : D -> bool) : bool :=
  match o with Some d => ok d | None => true end.

(** Every amount, distance and frequency of the input is non-negative. *)
Definition nonneg_input (user_data : activity_input) : bool :=
  (opt_nonneg (ui_transportation user_data)
     (forallb (fun e => nonneg_amounts (snd e))) &&
   opt_nonneg (ui_energy user_data) nonneg_amounts &&
   opt_nonneg (ui_food user_data) nonneg_amounts &&
   opt_nonneg (ui_waste user_data) nonneg_amounts)%bool.

Lemma nonneg_amounts_get (d : list (string * Q)) k x :
  nonneg_amounts d = true -> dict_get d k = Some x -> 0 <= x.
Proof.
  induction d as [|[k' y] d IH]; simpl; [discriminate|].
  intros H; apply andb_true_iff in H; destruct H as [Hy Hd].
  destruct (String.eqb k k').
  - intros E; injection E as <-; apply Qle_bool_iff; exact Hy.
  - apply IH; exact Hd.
Qed.

Lemma nonneg_amounts_default (d : list (string * Q)) k dflt :
  nonneg_amounts d = true -> 0 <= dflt -> 0 <= dict_get_default d k dflt.
Proof.
  intros H Hd; unfold dict_get_default.
  destruct (dict_get d k) eqn:E; [exact (nonneg_amounts_get d k q H E) | exact Hd].
Qed.

Lemma contributions_nonneg (factors d : list (string * Q)) :
  nonneg_amounts factors = true -> nonneg_amounts d = true ->
  0 <= contributions factors d.
Proof.
  intros Hf; induction d as [|[k x] d IH]; simpl; [intros _; apply Qle_refl|].
  intros H; apply andb_true_iff in H; destruct H as [Hx Hd].
  apply Qle_bool_iff in Hx.
  apply Qplus_nonneg; [|exact (IH Hd)].
  unfold factor_contribution; simpl.
  destruct (dict_get factors k) eqn:E; [|apply Qle_refl].
  apply Qmult_le_0_compat; [exact Hx | exact (nonneg_amounts_get _ _ _ Hf E)].
Qed.

Lemma by_factor_nonneg (factors d : list (string * Q)) :
  nonneg_amounts factors = true -> nonneg_amounts d = true ->
  0 <= calculate_by_factor factors d.
Proof.
  intros Hf Hd; rewrite by_factor_sum; exact (contributions_nonneg _ _ Hf Hd).
Qed.

Lemma transport_nonneg (d : list (string * transport_details)) :
  forallb (fun e => nonneg_amounts (snd e)) d = true ->
  0 <= calculate_transportation_footprint d.
Proof.
  intros H; rewrite transport_sum.
  induction d as [|[m det] d IH]; cbn [fold_right forallb snd] in *; [apply Qle_refl|].
  apply andb_true_iff in H; destruct H as [Hdet Hd].
  apply Qplus_nonneg; [|exact (IH Hd)].
  unfold transport_contribution; cbn [fst snd].
  destruct (dict_get transportation_factors m) eqn:E; [|apply Qle_refl].
  repeat apply Qmult_le_0_compat.
  - apply nonneg_amounts_default; [exact Hdet | apply Qle_refl].
  - apply nonneg_amounts_default; [exact Hdet | discriminate].
  - exact (nonneg_amounts_get transportation_factors m q eq_refl E).
Qed.

Lemma opt_entry_nonneg {D} (name : string) (o : option D) (f : D -> Q) ok :
  opt_nonneg o ok = true -> (forall d, ok d = true -> 0 <= f d) ->
  Forall (fun e => 0 <= snd e) (opt_entry name o f).
Proof.
  destruct o as [d|]; simpl; intros H Hf; [|constructor].
  constructor; [exact (Hf d H) | constructor].
Qed.

Lemma py_sum_acc_nonneg (l : list Q) (a : Q) :
  Forall (fun x => 0 <= x) l -> 0 <= a -> 0 <= fold_left Qplus l a.
Proof.
  revert a; induction l as [|x l IH]; simpl; intros a Hl Ha; [exact Ha|].
  inversion Hl; subst; apply IH; [assumption | apply Qplus_nonneg; assumption].
Qed.

(** With non-negative amounts, distances and frequencies, every entry of
    the breakdown, ['total'] included, is non-negative. *)
Theorem total_footprint_nonneg (user_data : activity_input) :
  nonneg_input user_data = true ->
  Forall (fun e => 0 <= snd e) (calculate_total_footprint user_data).
Proof.
  destruct user_data as [t e f w]; unfold nonneg_input; cbn [ui_transportation ui_energy ui_food ui_waste].
  intros H; repeat (apply andb_true_iff in H; destruct H as [H ?]).
  assert (Hbd : Forall (fun e => 0 <= snd e)
    (opt_entry "transportation" t calculate_transportation_footprint
     ++ opt_entry "energy" e calculate_energy_footprint
     ++ opt_entry "food" f calculate_food_footprint
     ++ opt_entry "waste" w calculate_waste_footprint)%list).
  { repeat (apply Forall_app; split).
    all: (eapply opt_entry_nonneg; [eassumption|]).
    all: intros d Hd.
    - apply transport_nonneg; exact Hd.
    - apply by_factor_nonneg; [reflexivity | exact Hd].
    - apply by_factor_nonneg; [reflexivity | exact Hd].
    - apply by_factor_nonneg; [reflexivity | exact Hd]. }
  unfold calculate_total_footprint; cbn zeta.
  apply Forall_app; split; [exact Hbd|].
  constructor; [|constructor]; cbn [snd].
  apply py_sum_acc_nonneg; [|apply Qle_refl].
  apply Forall_map; exact Hbd.
Qed.

Definition sample_input : activity_input :=
  {| ui_transportation := Some [("car_gasoline", [("distance", 20); ("frequency", 5)])];
     ui_energy := Some [("electricity", 300); ("natural_gas", 10)];
     ui_food := None;
     ui_waste := Some [("landfill", 2); ("recycling", 3)] |}.

Lemma total_footprint_nonneg_witness :
  nonneg_input sample_input = true /\
  Forall (fun e => 0 <= snd e) (calculate_total_footprint sample_input).
Proof.
  split; [vm_compute; reflexivity|].
  apply (total_footprint_nonneg sample_input); vm_compute; reflexivity.
Defined.

End CalculatorExtraFacts.

Module AdviceFacts.
Import CalculatorAdvice.

Definition advice_thresholds : list (string * Q) :=
  [("transportation", 100); ("energy", 200); ("food", 150); ("waste", 50)].

(** How many categories are strictly above their threshold, a missing one
    reading as 0. *)
Definition categories_over (footprint_data : list (string * Q)) : nat :=
  length (filter (fun kt => Qltb (snd kt) (dict_get_default footprint_data (fst kt) 0))
                 advice_thresholds).

(** [get_recommendations] returns four tips per category above its
    threshold, cut at five: never more than five, none when no category is
    above its threshold, and only one tip of the second category when two or
    more are. *)
Theorem get_recommendations_length (footprint_data : list (string * Q)) :
  length (get_recommendations footprint_data) =
    Nat.min 5 (4 * categories_over footprint_data).
Proof.
  unfold get_recommendations, categories_over, advice_thresholds.
  cbn [filter fst snd].
  repeat match goal with |- context [Qltb ?a ?b] => destruct (Qltb a b) end;
    reflexivity.
Qed.

End AdviceFacts.

Module EngineExtraFacts.
Import Recommendations EngineExtras.

Definition tip_categories := ["transportation"; "energy"; "food"; "waste"].

Lemma seasonal_length (current_month : Z) :
  length (get_seasonal_recommendations current_month) = 4%nat.
Proof.
  unfold get_seasonal_recommendations.
  repeat match goal with |- context [if ?c then _ else _] => destruct c end;
    reflexivity.
Qed.

(** A month number outside 1..12 falls through to the autumn tips. *)
Theorem seasonal_out_of_range_fall (current_month : Z) :
  (current_month < 1 \/ 12 < current_month)%Z ->
  get_seasonal_recommendations current_month = season_tips "fall".
Proof.
  intros H; unfold get_seasonal_recommendations; cbn [existsb].
  repeat rewrite (proj2 (Z.eqb_neq current_month _)) by lia.
  reflexivity.
Qed.

Lemma seasonal_out_of_range_fall_witness :
  get_seasonal_recommendations 13 = season_tips "fall".
Proof. apply seasonal_out_of_range_fall; lia. Defined.

Lemma fold_max_in (xs : list (string * Q)) (x : string * Q) :
  In (fold_left (fun best y => if Qltb (snd best) (snd y) then y else best) xs x)
     (x :: xs).
Proof.
  revert x; induction xs as [|y xs IH]; intros x; cbn [fold_left].
  - left; reflexivity.
  - destruct (Qltb (snd x) (snd y)).
    + right; apply IH.
    + destruct (IH x) as [E | Hin]; [left; exact E | right; right; exact Hin].
Qed.

Lemma max_by_value_in (pairs : list (string * Q)) :
  pairs <> [] -> exists p, max_by_value pairs = Ok p /\ In p pairs.
Proof.
  destruct pairs as [|x xs]; [congruence|]; intros _.
  eexists; split; [reflexivity | apply fold_max_in].
Qed.

Lemma tip_at_four (tips : list string) (week : Z) :
  length tips = 4%nat ->
  tip_at tips week = Ok (nth (Z.to_nat (Z.modulo week 4)) tips "").
Proof.
  intros H; unfold tip_at; rewrite H; cbn [Z.of_nat Pos.of_succ_nat Pos.succ].
  rewrite (nth_error_nth' tips ""); [reflexivity|].
  rewrite H; pose proof (Z.mod_pos_bound week 4); lia.
Qed.

Lemma weekly_db_four (cat : string) :
  In cat tip_categories ->
  dict_index weekly_tips_db cat = Ok (dict_get_default weekly_tips_db cat []) /\
  length (dict_get_default weekly_tips_db cat []) = 4%nat.
Proof.
  unfold tip_categories; cbn [In].
  intros [<- | [<- | [<- | [<- | []]]]]; split; reflexivity.
Qed.

(** With a footprint whose keys are breakdown keys and at least one
    category besides ['total'], [generate_weekly_tips] returns two tips for
    every week number, negative ones included: the tip at [week mod 4] of
    one of the four categories and the seasonal tip at [week mod 4]. *)
Theorem weekly_tips_shape (user_footprint : list (string * Q)) (week current_month : Z) :
  (forall k, In k (map fst user_footprint) -> In k RecommendationFacts.footprint_keys) ->
  (exists k, In k (map fst user_footprint) /\ k <> "total") ->
  exists cat, In cat tip_categories /\
    generate_weekly_tips user_footprint week current_month =
      Ok [nth (Z.to_nat (Z.modulo week 4)) (dict_get_default weekly_tips_db cat []) "";
          nth (Z.to_nat (Z.modulo week 4)) (get_seasonal_recommendations current_month) ""].
Proof.
  intros Hk [k0 [Hin Hne]].
  unfold generate_weekly_tips.
  match goal with |- context [max_by_value ?l] =>
    assert (Hl : l <> []);
    [|destruct (max_by_value_in l Hl) as [[cat v] [Hm Hp]]]
  end.
  - apply in_map_iff in Hin; destruct Hin as [[k v] [Ek Hin]]; cbn [fst] in Ek; subst k.
    intros E.
    assert (Hf : In (k0, v) (filter (fun '(k, _) => negb (String.eqb k "total"))
                                    user_footprint)).
    { apply filter_In; split; [exact Hin|].
      apply negb_true_iff, String.eqb_neq; exact Hne. }
    rewrite E in Hf; exact Hf.
  - apply filter_In in Hp; destruct Hp as [Hp Hnt].
    apply negb_true_iff, String.eqb_neq in Hnt.
    assert (Hc : In cat tip_categories).
    { assert (Hkey := Hk cat (in_map fst _ _ Hp)).
      unfold RecommendationFacts.footprint_keys in Hkey; unfold tip_categories.
      cbn [In] in *; intuition congruence. }
    exists cat; split; [exact Hc|].
    rewrite Hm; cbn [bind fst].
    destruct (weekly_db_four cat Hc) as [Hd Hlen].
    rewrite Hd; cbn [bind].
    rewrite (tip_at_four _ week Hlen); cbn [bind].
    rewrite (tip_at_four _ week (seasonal_length current_month)).
    reflexivity.
Qed.

Lemma weekly_tips_shape_witness :
  exists cat, In cat tip_categories /\
    generate_weekly_tips [("transportation", 3); ("energy", 9); ("total", 12)] (-3) 1 =
      Ok [nth (Z.to_nat (Z.modulo (-3) 4)) (dict_get_default weekly_tips_db cat []) "";
          nth (Z.to_nat (Z.modulo (-3) 4)) (get_seasonal_recommendations 1) ""].
Proof.
  apply weekly_tips_shape.
  - intros k Hk; cbn in Hk; unfold RecommendationFacts.footprint_keys; cbn [In]; tauto.
  - exists "energy"; split; [cbn; tauto | discriminate].
Defined.

(** The Recommendations page's fallback [{'total': 20}], used when there
    is no recent data, leaves [max] an empty sequence: the page's call
    raises [ValueError] for every week and month. *)
Theorem page_fallback_weekly_tips_raise (current_week current_month : Z) :
  page_weekly_tips None current_week current_month =
    Error (ValueError "max() arg is an empty sequence").
Proof. reflexivity. Qed.

(** Without a ['total'] entry the user reads as 0 kg a year: below every
    benchmark, at -100%. *)
Theorem benchmark_missing_total (user_footprint : list (string * Q)) :
  dict_get user_footprint "total" = None ->
  Forall (fun nc => cmp_status (snd nc) = "below" /\ cmp_percentage (snd nc) == -100)
    (benchmark_against_peers user_footprint).
Proof.
  intros H; unfold benchmark_against_peers, dict_get_default; rewrite H.
  repeat constructor; vm_compute; reflexivity.
Qed.

Lemma benchmark_missing_total_witness :
  Forall (fun nc => cmp_status (snd nc) = "below" /\ cmp_percentage (snd nc) == -100)
    (benchmark_against_peers [("energy", 5); ("food", 2)]).
Proof. apply benchmark_missing_total; reflexivity. Defined.

End EngineExtraFacts.

Module EngineRecommendationFacts.
Import Recommendations EngineExtras.

Definition engine_categories := ["transportation"; "energy"; "food"; "waste"].

Lemma first_match_in (rec_lower : string) (m : list (string * string)) (a : string) :
  first_match rec_lower m = Some a -> In a (map snd m).
Proof.
  induction m as [|[kw act] m IH]; cbn [first_match map snd]; [discriminate|].
  destruct (str_contains kw rec_lower); [intros E; injection E as <-; left; reflexivity|].
  intros H; right; exact (IH H).
Qed.

(** [_extract_action_key] succeeds exactly on the categories of its table
    and returns one of that category's actions. *)
Lemma extract_action_key_inv (recommendation category a : string) :
  _extract_action_key recommendation category = Ok a ->
  In category engine_categories /\
  In a (map snd (dict_get_default action_mapping category [])).
Proof.
  unfold _extract_action_key, dict_index, dict_get_default.
  destruct (dict_get action_mapping category) as [mapping|] eqn:E; cbn [bind];
    [|discriminate].
  intros H; split.
  - unfold action_mapping in E; cbn [dict_get] in E.
    unfold engine_categories; cbn [In].
    repeat match type of E with
           | context [String.eqb category ?s] =>
               destruct (String.eqb_spec category s); [subst; tauto|]
           end; discriminate.
  - destruct (first_match (lower recommendation) mapping) eqn:F.
    + injection H as <-; exact (first_match_in _ _ _ F).
    + destruct mapping as [|[kw act] m]; cbn [map snd] in H; [discriminate|].
      injection H as <-; left; reflexivity.
Qed.

Lemma extract_action_key_ok (recommendation category : string) :
  In category engine_categories ->
  exists a, _extract_action_key recommendation category = Ok a.
Proof.
  intros Hc.
  assert (E : dict_get action_mapping category =
              Some (dict_get_default action_mapping category [])).
  { unfold engine_categories in Hc; cbn [In] in Hc.
    destruct Hc as [<- | [<- | [<- | [<- | []]]]]; reflexivity. }
  unfold _extract_action_key, dict_index; rewrite E; cbn [bind].
  destruct (first_match _ _); [eexists; reflexivity|].
  unfold engine_categories in Hc; cbn [In] in Hc.
  destruct Hc as [<- | [<- | [<- | [<- | []]]]]; eexists; reflexivity.
Qed.

(** Every action of a category's keyword table has a strictly negative
    entry in that category's impact table. *)
Definition actions_have_impact (category : string) : bool :=
  forallb (fun a =>
             match dict_get (dict_get_default impact_estimates category []) a with
             | Some v => Z.ltb v 0
             | None => false
             end)
          (map snd (dict_get_default action_mapping category [])).

Lemma actions_have_impact_all :
  forallb actions_have_impact engine_categories = true.
Proof. vm_compute; reflexivity. Qed.

(** For each of the four categories and any recommendation text,
    [_extract_action_key] returns an action found in the category's impact
    table with a strictly negative estimate: the lookup's default of 0 is
    never used. *)
Theorem extract_action_key_has_impact (recommendation category : string) :
  In category engine_categories ->
  exists a v,
    _extract_action_key recommendation category = Ok a /\
    dict_get (dict_get_default impact_estimates category []) a = Some v /\
    (v < 0)%Z.
Proof.
  intros Hc.
  destruct (extract_action_key_ok recommendation category Hc) as [a Ha].
  destruct (extract_action_key_inv _ _ _ Ha) as [_ Hin].
  assert (Hall : actions_have_impact category = true).
  { pose proof actions_have_impact_all as H; rewrite forallb_forall in H; exact (H _ Hc). }
  unfold actions_have_impact in Hall; rewrite forallb_forall in Hall.
  specialize (Hall a Hin).
  destruct (dict_get (dict_get_default impact_estimates category []) a) as [v|] eqn:E;
    [|discriminate].
  exists a, v; split; [exact Ha|]; split; [exact E|]; apply Z.ltb_lt; exact Hall.
Qed.

Lemma extract_action_key_has_impact_witness :
  exists a v,
    _extract_action_key "Plant a tree" "food" = Ok a /\
    dict_get (dict_get_default impact_estimates "food" []) a = Some v /\
    (v < 0)%Z.
Proof. apply extract_action_key_has_impact; cbn; tauto. Defined.

Lemma py_min_5_bounds (a : Q) : 0 <= a -> 0 <= py_min a 5 /\ py_min a 5 <= 5.
Proof.
  intros Ha; unfold py_min, Qltb.
  destruct (Qle_bool a 5) eqn:E; cbn [negb].
  - apply Qle_bool_iff in E; split; assumption.
  - split; discriminate.
Qed.

Lemma py_int_bounds (q : Q) : 0 <= q -> q <= 10 -> (0 <= py_int q <= 10)%Z.
Proof.
  destruct q as [n d]; unfold py_int, Qle; cbn [Qnum Qden].
  intros H0 H10.
  assert (Hn : (0 <= n)%Z) by lia.
  rewrite Z.quot_div_nonneg by lia.
  split; [apply Z.div_pos; lia|].
  apply Z.div_le_upper_bound; lia.
Qed.

(** [_calculate_priority] lies in 0..10 for non-negative emissions. *)
Lemma priority_bounds (current_emissions : Q) (impact : Z) :
  0 <= current_emissions ->
  (0 <= _calculate_priority current_emissions impact <= 10)%Z.
Proof.
  intros He; unfold _calculate_priority.
  destruct (py_min_5_bounds (current_emissions / 100)) as [A1 A2].
  { apply Qle_shift_div_l; [reflexivity|]; rewrite Qmult_0_l; exact He. }
  destruct (py_min_5_bounds (inject_Z (Z.abs impact) / 500)) as [B1 B2].
  { apply Qle_shift_div_l; [reflexivity|]; rewrite Qmult_0_l.
    unfold Qle, inject_Z; cbn [Qnum Qden]; lia. }
  apply py_int_bounds; lra.
Qed.

Lemma difficulty_levels (recommendation : string) :
  In (_estimate_difficulty recommendation) ["Low"; "Medium"; "High"].
Proof.
  unfold _estimate_difficulty.
  destruct (existsb _ _); [cbn; tauto|].
  destruct (existsb _ _); cbn; tauto.
Qed.

(** What every generated recommendation satisfies. *)
Definition well_formed (r : recommendation) : Prop :=
  (impact_estimate r < 0)%Z /\ (0 <= priority r <= 10)%Z /\
  In (difficulty r) ["Low"; "Medium"; "High"].

Lemma recs_for_ok (category : string) (emissions : Q) (recs : list string) :
  In category engine_categories -> 0 <= emissions ->
  exists l, recs_for category emissions recs = Ok l /\ Forall well_formed l.
Proof.
  intros Hc He; induction recs as [|r recs IH]; cbn [recs_for].
  - exists []; split; [reflexivity | constructor].
  - destruct (extract_action_key_has_impact r category Hc) as [a [v [Ha [Hv Hneg]]]].
    rewrite Ha; cbn [bind].
    assert (Hi : dict_index impact_estimates category =
                 Ok (dict_get_default impact_estimates category [])).
    { unfold engine_categories in Hc; cbn [In] in Hc.
      destruct Hc as [<- | [<- | [<- | [<- | []]]]]; reflexivity. }
    rewrite Hi; cbn [bind].
    destruct IH as [l [Hl Fl]]; rewrite Hl; cbn [bind].
    eexists; split; [reflexivity|].
    constructor; [|exact Fl].
    unfold well_formed, dict_get_default at 1; cbn [impact_estimate priority difficulty].
    rewrite Hv; split; [exact Hneg|]; split;
      [apply priority_bounds, He | apply difficulty_levels].
Qed.

Lemma category_step_well_formed (k : string) (emissions : Q) :
  In k RecommendationFacts.footprint_keys -> 0 <= emissions ->
  exists l, category_step k emissions = Ok l /\ Forall well_formed l.
Proof.
  intros Hk He; unfold RecommendationFacts.footprint_keys in Hk; cbn [In] in Hk.
  destruct Hk as [<- | [<- | [<- | [<- | [<- | []]]]]];
    [| | | | exists []; split; [reflexivity | constructor]];
  unfold category_step; cbn -[recs_for Qltb];
  repeat match goal with |- context [Qltb ?a ?b] => destruct (Qltb a b) end;
  cbn -[recs_for];
  (apply recs_for_ok; [cbn; tauto | exact He]).
Qed.

Definition nonneg_emissions (user_footprint : list (string * Q)) : bool :=
  forallb (fun kv => Qle_bool 0 (snd kv)) user_footprint.

(** For a footprint whose keys are breakdown keys and whose values are
    non-negative, every recommendation [get_personalized_recommendations]
    returns has a strictly negative [impact_estimate], a [priority] in
    0..10 and a difficulty of Low, Medium or High. *)
Theorem personalized_recommendations_well_formed (user_footprint : list (string * Q)) :
  (forall k, In k (map fst user_footprint) -> In k RecommendationFacts.footprint_keys) ->
  nonneg_emissions user_footprint = true ->
  exists l, get_personalized_recommendations user_footprint = Ok l /\
            Forall well_formed l.
Proof.
  intros Hk Hn.
  assert (Hc : exists l, collect user_footprint = Ok l /\ Forall well_formed l).
  { induction user_footprint as [|[k e] fp IH]; cbn [collect].
    - exists []; split; [reflexivity | constructor].
    - unfold nonneg_emissions in Hn; cbn [forallb snd] in Hn.
      apply andb_true_iff in Hn; destruct Hn as [He Hn].
      apply Qle_bool_iff in He.
      destruct (category_step_well_formed k e) as [l1 [H1 F1]];
        [apply Hk; left; reflexivity | exact He |].
      destruct IH as [l2 [H2 F2]];
        [intros k' Hin; apply Hk; right; exact Hin | exact Hn |].
      rewrite H1; cbn [bind]; rewrite H2; cbn [bind].
      exists (l1 ++ l2)%list; split; [reflexivity | apply Forall_app; split; assumption]. }
  destruct Hc as [l [Hl Fl]].
  unfold get_personalized_recommendations; rewrite Hl; cbn [bind].
  eexists; split; [reflexivity|].
  apply RecommendationFacts.Forall_firstn, RecommendationFacts.sort_desc_forall, Fl.
Qed.

Lemma personalized_recommendations_well_formed_witness :
  exists l, get_personalized_recommendations
              [("transportation", 150); ("energy", 250); ("food", 80); ("waste", 10);
               ("total", 490)] = Ok l /\
            Forall well_formed l.
Proof.
  apply personalized_recommendations_well_formed.
  - intros k Hk; cbn in Hk; unfold RecommendationFacts.footprint_keys; cbn [In]; tauto.
  - vm_compute; reflexivity.
Defined.

Lemma thresholds_unknown (k : string) :
  ~ In k RecommendationFacts.footprint_keys -> dict_get thresholds k = None.
Proof.
  unfold RecommendationFacts.footprint_keys; cbn [In]; intros Hk.
  unfold thresholds; cbn [dict_get].
  repeat match goal with
         | |- context [String.eqb k ?s] =>
             destruct (String.eqb_spec k s); [subst; tauto|]
         end; reflexivity.
Qed.

(** A footprint key outside ['transportation', 'energy', 'food', 'waste',
    'total'] makes [get_personalized_recommendations] raise [KeyError]: the
    dict is read in order, and the error names the first such key. *)
Theorem personalized_unknown_key_error
    (before after : list (string * Q)) (k : string) (v : Q) :
  Forall (fun kv => In (fst kv) RecommendationFacts.footprint_keys) before ->
  ~ In k RecommendationFacts.footprint_keys ->
  get_personalized_recommendations (before ++ (k, v) :: after)%list = Error (KeyError k).
Proof.
  intros Hbefore Hout.
  assert (Hc : collect (before ++ (k, v) :: after)%list = Error (KeyError k)).
  { induction before as [|[k' e] fp IH]; cbn [app collect].
    - unfold category_step.
      assert (Ht : String.eqb k "total" = false).
      { apply String.eqb_neq; intros ->; apply Hout; cbn; tauto. }
      rewrite Ht; unfold dict_index at 1; rewrite (thresholds_unknown k Hout).
      reflexivity.
    - inversion Hbefore as [|x l Hk' Hrest]; subst; cbn [fst] in Hk'.
      destruct (RecommendationFacts.category_step_ok k' e Hk') as [l1 [H1 _]].
      rewrite H1; cbn [bind].
      cbn [app] in IH; rewrite (IH Hrest); reflexivity. }
  unfold get_personalized_recommendations; rewrite Hc; reflexivity.
Qed.

Lemma personalized_unknown_key_error_witness :
  get_personalized_recommendations
    [("transportation", 150); ("electricity", 30); ("food", 20); ("gas", 4)] =
    Error (KeyError "electricity").
Proof.
  apply (personalized_unknown_key_error [("transportation", 150)] [("food", 20); ("gas", 4)]).
  - repeat constructor; cbn; tauto.
  - unfold RecommendationFacts.footprint_keys; cbn [In]; intuition discriminate.
Defined.

Lemma cost_actions_categories (c a : string) (cost : Z) :
  In a (map snd (dict_get_default action_mapping c [])) ->
  dict_get cost_estimates a = Some cost ->
  c = "transportation" \/ c = "energy".
Proof.
  intros Hin Hcost; revert Hin.
  unfold dict_get_default, action_mapping; cbn [dict_get].
  destruct (String.eqb_spec c "transportation"); [intros _; left; assumption|].
  destruct (String.eqb_spec c "energy"); [intros _; right; assumption|].
  intros Hin; exfalso.
  destruct (c =? "food"); [|destruct (c =? "waste")]; cbn [map snd In] in Hin;
    repeat (destruct Hin as [<- | Hin]; [discriminate Hcost|]); destruct Hin.
Qed.

Lemma cost_estimates_pos (a : string) (cost : Z) :
  dict_get cost_estimates a = Some cost -> (0 < cost)%Z.
Proof.
  unfold cost_estimates; cbn [dict_get].
  repeat match goal with
         | |- context [String.eqb a ?s] => destruct (String.eqb a s)
         end; intros E; try discriminate E; injection E as <-; lia.
Qed.

(** [calculate_roi_recommendations] keeps every recommendation, in order,
    and adds ROI entries only to transportation and energy
    recommendations, always with a positive [upfront_cost], positive
    [annual_savings], positive [payback_years] and a five-year ROI of at
    least -100%. *)
Theorem roi_entries (recommendations : list recommendation)
    (out : list (recommendation * option roi)) :
  calculate_roi_recommendations recommendations = Ok out ->
  map fst out = recommendations /\
  Forall (fun ro =>
            match snd ro with
            | Some x =>
                (lower (rec_category (fst ro)) = "transportation" \/
                 lower (rec_category (fst ro)) = "energy") /\
                (0 < upfront_cost x)%Z /\ 0 < annual_savings x /\
                0 < payback_years x /\ -100 <= roi_5year x
            | None => True
            end) out.
Proof.
  unfold calculate_roi_recommendations.
  revert out; induction recommendations as [|r recs IH]; intros out; cbn [Predictor.map_result].
  - intros E; injection E as <-; split; [reflexivity | constructor].
  - destruct (_extract_action_key (rec_text r) (lower (rec_category r))) as [a|e] eqn:Ha;
      cbn [bind]; [|discriminate].
    destruct (extract_action_key_inv _ _ _ Ha) as [_ Hin].
    destruct (dict_get cost_estimates a) as [cost|] eqn:Hcost.
    + destruct (Qltb 0 (inject_Z (Z.abs (impact_estimate r)) * (carbon_price / 1000)))
        eqn:Hs; cbn [bind];
      (destruct (Predictor.map_result _ recs) as [rest|e] eqn:Hr; cbn [bind]; [|discriminate]);
      intros E; injection E as <-; destruct (IH rest eq_refl) as [Hm Hf];
        (split; [cbn [map fst]; rewrite Hm; reflexivity|]); constructor; cbn [snd fst]; auto.
      cbn [annual_savings payback_years upfront_cost roi_5year].
      unfold Qltb in Hs; apply negb_true_iff in Hs.
      assert (Hpos : 0 < inject_Z (Z.abs (impact_estimate r)) * (carbon_price / 1000)).
      { apply Qnot_le_lt; intros H; apply Qle_bool_iff in H; congruence. }
      split; [exact (cost_actions_categories _ _ _ Hin Hcost)|].
      assert (Hc : (0 < cost)%Z) by (apply (cost_estimates_pos a); exact Hcost).
      assert (Hcq : 0 < inject_Z cost) by (unfold Qlt, inject_Z; cbn [Qnum Qden]; lia).
      set (sv := inject_Z (Z.abs (impact_estimate r)) * (carbon_price / 1000)) in *.
      split; [exact Hc|]; split; [exact Hpos|]; split.
      * apply Qlt_shift_div_l; [exact Hpos|]; rewrite Qmult_0_l; exact Hcq.
      * assert (E : (sv * 5 - inject_Z cost) / inject_Z cost * 100 ==
                    sv * 5 / inject_Z cost * 100 - 100).
        { field; intros H; rewrite H in Hcq; exact (Qlt_irrefl 0 Hcq). }
        rewrite E.
        assert (0 <= sv * 5 / inject_Z cost).
        { apply Qle_shift_div_l; [exact Hcq|]; rewrite Qmult_0_l; lra. }
        lra.
    + cbn [bind].
      destruct (Predictor.map_result _ recs) as [rest|e] eqn:Hr; cbn [bind]; [|discriminate].
      intros E; injection E as <-; destruct (IH rest eq_refl) as [Hm Hf].
      split; [cbn [map fst]; rewrite Hm; reflexivity|]; constructor; cbn [snd]; auto.
Qed.

Definition sample_recommendations : list recommendation :=
  [{| rec_category := "Energy"; rec_text := "Switch to renewable energy sources (solar, wind)";
      impact_estimate := -1500; priority := 6; difficulty := "High" |};
   {| rec_category := "Food"; rec_text := "Reduce red meat consumption (beef, lamb) by 50%";
      impact_estimate := -500; priority := 2; difficulty := "Medium" |}].

Definition sample_roi : list (recommendation * option roi) :=
  match calculate_roi_recommendations sample_recommendations with
  | Ok out => out
  | Error _ => []
  end.

Lemma roi_entries_witness :
  map fst sample_roi = sample_recommendations /\
  Forall (fun ro =>
            match snd ro with
            | Some x =>
                (lower (rec_category (fst ro)) = "transportation" \/
                 lower (rec_category (fst ro)) = "energy") /\
                (0 < upfront_cost x)%Z /\ 0 < annual_savings x /\
                0 < payback_years x /\ -100 <= roi_5year x
            | None => True
            end) sample_roi.
Proof. apply roi_entries; vm_compute; reflexivity. Defined.

End EngineRecommendationFacts.

Module PatternFacts.
Import PatternAnalysis.

Lemma insert_str_nonempty (x : string) (l : list string) : insert_str x l <> [].
Proof.
  destruct l as [|y l]; cbn [insert_str]; [discriminate|].
  destruct (String.eqb x y); [discriminate|].
  destruct (String.ltb x y); discriminate.
Qed.

Lemma fold_insert_str_nonempty (h : list history_row) (acc : list string) :
  acc <> [] ->
  fold_left (fun acc r => insert_str (day_name (date r)) acc) h acc <> [].
Proof.
  revert acc; induction h as [|r h IH]; intros acc Hacc; cbn [fold_left];
    [exact Hacc | apply IH, insert_str_nonempty].
Qed.

Lemma daily_average_nonempty (r : history_row) (h : list history_row) :
  daily_average (r :: h) <> [].
Proof.
  unfold daily_average; cbn [fold_left].
  intros E; apply map_eq_nil in E.
  exact (fold_insert_str_nonempty h _ (insert_str_nonempty _ _) E).
Qed.

(** [analyze_user_pattern] reports nothing on an empty history, one
    pattern (the highest category) below 7 rows, two (plus the trend) from 7
    to 13 rows and four (plus the highest and lowest weekday) from 14 rows
    on; below 7 rows it suggests no opportunity. *)
Theorem pattern_counts (footprint_history : list history_row) :
  (footprint_history = [] ->
     analyze_user_pattern footprint_history = {| patterns := []; opportunities := [] |}) /\
  (footprint_history <> [] ->
     length (patterns (analyze_user_pattern footprint_history)) =
       (if Nat.leb 14 (length footprint_history) then 4
        else if Nat.leb 7 (length footprint_history) then 2 else 1)%nat) /\
  ((length footprint_history < 7)%nat ->
     opportunities (analyze_user_pattern footprint_history) = []).
Proof.
  destruct footprint_history as [|r h].
  - split; [reflexivity|]; split; [congruence | reflexivity].
  - split; [discriminate|].
    unfold analyze_user_pattern.
    destruct (Nat.leb 14 (length (r :: h))) eqn:E14;
    destruct (Nat.leb 7 (length (r :: h))) eqn:E7;
      try (apply Nat.leb_le in E14; apply Nat.leb_gt in E7; lia).
    + destruct (daily_average (r :: h)) as [|x xs] eqn:Ed;
        [exfalso; exact (daily_average_nonempty r h Ed)|].
      split; [|intros Hl; apply Nat.leb_le in E7; lia].
      repeat match goal with |- context [if Qltb ?a ?b then _ else _] =>
        destruct (Qltb a b) end; reflexivity.
    + split; [|intros Hl; apply Nat.leb_le in E7; lia].
      repeat match goal with |- context [if Qltb ?a ?b then _ else _] =>
        destruct (Qltb a b) end; reflexivity.
    + split; intros; reflexivity.
Qed.

Lemma q_sum_acc_nonneg (l : list Q) (a : Q) :
  Forall (fun x => 0 <= x) l -> 0 <= a -> 0 <= fold_left Qplus l a.
Proof.
  revert a; induction l as [|x l IH]; cbn [fold_left]; intros a Hl Ha; [exact Ha|].
  inversion Hl; subst; apply IH; [assumption|].
  apply Qle_trans with (0 + 0); [discriminate | apply Qplus_le_compat; assumption].
Qed.

(** With exactly seven days of non-negative totals, the "last seven" and
    "first seven" windows coincide, so the trend is always reported as
    stable and no trend opportunity is suggested. *)
Theorem seven_rows_always_stable (footprint_history : list history_row) :
  length footprint_history = 7%nat ->
  Forall (fun r => 0 <= total_emissions r) footprint_history ->
  nth 1 (patterns (analyze_user_pattern footprint_history)) "" =
    "Your emissions have been relatively stable" /\
  opportunities (analyze_user_pattern footprint_history) = [].
Proof.
  intros Hlen Hnn.
  destruct footprint_history as [|r h]; [discriminate|].
  unfold analyze_user_pattern; rewrite Hlen; cbn [Nat.leb].
  assert (Hl : Predictor.last_n 7 (map total_emissions (r :: h)) =
               map total_emissions (r :: h)).
  { unfold Predictor.last_n; rewrite length_map, Hlen; reflexivity. }
  assert (Hf : firstn 7 (map total_emissions (r :: h)) = map total_emissions (r :: h)).
  { apply firstn_all2; rewrite length_map, Hlen; lia. }
  rewrite Hl, Hf.
  set (m := series_mean (map total_emissions (r :: h))).
  assert (Hm : 0 <= m).
  { unfold m, series_mean, Predictor.mean, Predictor.q_sum.
    rewrite length_map, Hlen.
    apply Qle_shift_div_l; [reflexivity|]; rewrite Qmult_0_l.
    apply q_sum_acc_nonneg; [apply Forall_map; exact Hnn | apply Qle_refl]. }
  assert (H1 : Qltb (m * 1.1) m = false).
  { unfold Qltb; apply negb_false_iff, Qle_bool_iff; lra. }
  assert (H2 : Qltb m (m * 0.9) = false).
  { unfold Qltb; apply negb_false_iff, Qle_bool_iff; lra. }
  rewrite H1, H2; split; reflexivity.
Qed.

Definition sample_row (day : Z) (total : Q) : history_row :=
  {| date := (2024, 1, day)%Z; transportation_emissions := total / 2;
     energy_emissions := total / 4; food_emissions := total / 8;
     waste_emissions := total / 8; total_emissions := total |}.

Definition sample_week : list history_row :=
  [sample_row 1 10; sample_row 2 30; sample_row 3 12; sample_row 4 0;
   sample_row 5 25; sample_row 6 40; sample_row 7 18].

Lemma seven_rows_always_stable_witness :
  nth 1 (patterns (analyze_user_pattern sample_week)) "" =
    "Your emissions have been relatively stable" /\
  opportunities (analyze_user_pattern sample_week) = [].
Proof.
  apply seven_rows_always_stable; [reflexivity|].
  repeat constructor; discriminate.
Defined.

Lemma pattern_counts_witness :
  length (patterns (analyze_user_pattern sample_week)) = 2%nat.
Proof.
  rewrite (proj1 (proj2 (pattern_counts sample_week))); [reflexivity | discriminate].
Defined.

End PatternFacts.

Module TrainingFacts.
Import Predictor.

Lemma cell_eqb_refl (c : cell) : cell_eqb c c = true.
Proof. destruct c; cbn [cell_eqb]; [apply Qeq_bool_refl | apply String.eqb_refl]. Qed.

Lemma index_of_spec (x : cell) (l : list cell) (j : nat) :
  index_of x l = Some j -> exists y, nth_error l j = Some y /\ cell_eqb x y = true.
Proof.
  revert j; induction l as [|z l IH]; intros j; cbn [index_of]; [discriminate|].
  destruct (cell_eqb x z) eqn:E.
  - intros H; injection H as <-; exists z; split; [reflexivity | exact E].
  - destruct (index_of x l) as [i|] eqn:I; cbn [option_map]; [|discriminate].
    intros H; injection H as <-; exact (IH i eq_refl).
Qed.

Lemma index_of_found (x y : cell) (l : list cell) :
  In y l -> cell_eqb x y = true -> exists j, index_of x l = Some j.
Proof.
  induction l as [|z l IH]; cbn [In index_of]; [intros []|].
  intros Hin Hxy; destruct (cell_eqb x z) eqn:E; [eexists; reflexivity|].
  destruct Hin as [<- | Hin]; [congruence|].
  destruct (IH Hin Hxy) as [j Hj]; rewrite Hj; exists (S j); reflexivity.
Qed.

Lemma insert_uniq_keeps (x y : cell) (l : list cell) :
  In y l -> In y (insert_uniq x l).
Proof.
  induction l as [|z l IH]; cbn [insert_uniq]; [intros []|].
  intros Hin; destruct (cell_eqb x z); [exact Hin|].
  destruct (cell_ltb x z); [right; exact Hin|].
  destruct Hin as [<- | Hin]; [left; reflexivity | right; apply IH, Hin].
Qed.

Lemma insert_uniq_covers (x : cell) (l : list cell) :
  exists y, In y (insert_uniq x l) /\ cell_eqb x y = true.
Proof.
  induction l as [|z l IH]; cbn [insert_uniq].
  - exists x; split; [left; reflexivity | apply cell_eqb_refl].
  - destruct (cell_eqb x z) eqn:E; [exists z; split; [left; reflexivity | exact E]|].
    destruct (cell_ltb x z).
    + exists x; split; [left; reflexivity | apply cell_eqb_refl].
    + destruct IH as [y [Hy Hxy]]; exists y; split; [right; exact Hy | exact Hxy].
Qed.

Lemma fold_insert_keeps (col acc : list cell) (y : cell) :
  In y acc -> In y (fold_left (fun acc x => insert_uniq x acc) col acc).
Proof.
  revert acc; induction col as [|x col IH]; intros acc Hy; cbn [fold_left];
    [exact Hy | apply IH, insert_uniq_keeps, Hy].
Qed.

Lemma fold_insert_covers (col acc : list cell) (v : cell) :
  In v col ->
  exists y, In y (fold_left (fun acc x => insert_uniq x acc) col acc) /\
            cell_eqb v y = true.
Proof.
  revert acc; induction col as [|x col IH]; intros acc Hv; cbn [fold_left In] in *;
    [destruct Hv|].
  destruct Hv as [-> | Hv]; [|apply IH, Hv].
  destruct (insert_uniq_covers v acc) as [y [Hy Hvy]].
  exists y; split; [apply fold_insert_keeps, Hy | exact Hvy].
Qed.

(** An encoded value is the position of a class equal to the original. *)
Definition decodes_to (classes : list cell) (v e : cell) : Prop :=
  exists j y, e = CNum (inject_Z (Z.of_nat j)) /\ nth_error classes j = Some y /\
              cell_eqb v y = true.

Lemma map_label_transform (classes col : list cell) :
  (forall v, In v col -> exists y, In y classes /\ cell_eqb v y = true) ->
  exists enc, map_result (label_transform classes) col = Ok enc /\
              Forall2 (decodes_to classes) col enc.
Proof.
  induction col as [|x col IH]; intros Hcov; cbn [map_result].
  - exists []; split; [reflexivity | constructor].
  - destruct (Hcov x (or_introl eq_refl)) as [y [Hy Hxy]].
    destruct (index_of_found x y classes Hy Hxy) as [j Hj].
    unfold label_transform at 1; rewrite Hj; cbn [bind].
    destruct IH as [enc [He F]]; [intros v Hv; apply Hcov; right; exact Hv|].
    rewrite He; cbn [bind].
    eexists; split; [reflexivity|]; constructor; [|exact F].
    destruct (index_of_spec x classes j Hj) as [y' [Hn Hxy']].
    exists j, y'; split; [reflexivity | split; assumption].
Qed.

(** [LabelEncoder.fit_transform] on a column of only strings or only
    numbers succeeds, and every encoded value is the index of a class equal
    to the original value: [inverse_transform] gives the column back. *)
Theorem label_fit_transform_roundtrip (col : list cell) :
  (forallb is_str col || forallb is_num col)%bool = true ->
  exists classes enc,
    label_fit_transform col = Ok (classes, enc) /\
    Forall2 (decodes_to classes) col enc.
Proof.
  intros H; unfold label_fit_transform; rewrite H.
  destruct (map_label_transform
              (fold_left (fun acc x => insert_uniq x acc) col []) col)
    as [enc [He F]].
  { intros v Hv; apply fold_insert_covers, Hv. }
  rewrite He; cbn [bind].
  eexists; eexists; split; [reflexivity | exact F].
Qed.

Lemma label_fit_transform_roundtrip_witness :
  exists classes enc,
    label_fit_transform [CStr "urban"; CStr "rural"; CStr "urban"; CStr "suburban"] =
      Ok (classes, enc) /\
    Forall2 (decodes_to classes)
      [CStr "urban"; CStr "rural"; CStr "urban"; CStr "suburban"] enc.
Proof. apply label_fit_transform_roundtrip; reflexivity. Defined.

Lemma dict_get_replace {V} (d : list (string * V)) (k k' : string) (v : V) :
  dict_get (map (fun '(k0, v0) => if String.eqb k k0 then (k0, v) else (k0, v0)) d) k' =
  match dict_get d k' with
  | Some w => Some (if String.eqb k' k then v else w)
  | None => None
  end.
Proof.
  induction d as [|[k0 v0] d IH]; cbn [map dict_get]; [reflexivity|].
  destruct (String.eqb_spec k k0) as [<- | Hk]; cbn [dict_get].
  - destruct (String.eqb k' k); [reflexivity | exact IH].
  - destruct (String.eqb_spec k' k0) as [-> | Hk']; [|exact IH].
    rewrite (proj2 (String.eqb_neq k0 k)) by congruence; reflexivity.
Qed.

Lemma dict_get_app_one {V} (d : list (string * V)) (k k' : string) (v : V) :
  dict_get (d ++ [(k, v)])%list k' =
  match dict_get d k' with
  | Some w => Some w
  | None => if String.eqb k' k then Some v else None
  end.
Proof.
  induction d as [|[k0 v0] d IH]; cbn [app dict_get]; [reflexivity|].
  destruct (String.eqb k' k0); [reflexivity | exact IH].
Qed.

(** [d[k] = v] on a dict, read back. *)
Lemma dict_set_get {V} (d : list (string * V)) (k k' : string) (v : V) :
  dict_get (dict_set d k v) k' = if String.eqb k' k then Some v else dict_get d k'.
Proof.
  unfold dict_set, dict_mem.
  destruct (dict_get d k) eqn:E.
  - rewrite dict_get_replace.
    destruct (String.eqb_spec k' k) as [-> | Hk]; [rewrite E; reflexivity|].
    destruct (dict_get d k'); reflexivity.
  - rewrite dict_get_app_one.
    destruct (String.eqb_spec k' k) as [-> | Hk]; [rewrite E; reflexivity|].
    destruct (dict_get d k'); reflexivity.
Qed.

(** The states a left fold in the result monad goes through. *)
Fixpoint steps {S N} (R : S -> N -> S -> Prop) (s : S) (ns : list N) (s' : S) : Prop :=
  match ns with
  | [] => s = s'
  | n :: ns' => exists t, R s n t /\ steps R t ns' s'
  end.

Lemma fold_result_steps {S N} (f : result S -> N -> result S) (R : S -> N -> S -> Prop) :
  (forall acc n t, f acc n = Ok t -> exists s, acc = Ok s /\ R s n t) ->
  forall ns a s', fold_left f ns a = Ok s' -> exists s, a = Ok s /\ steps R s ns s'.
Proof.
  intros Hf ns; induction ns as [|n ns IH]; intros a s' H; cbn [fold_left] in H.
  - exists s'; split; [exact H | reflexivity].
  - destruct (IH _ _ H) as [t [Ht Hs]].
    destruct (Hf _ _ _ Ht) as [s [Ha Hr]].
    exists s; split; [exact Ha|]; exists t; split; assumption.
Qed.

Lemma fold_result_first_error {S N} (f : result S -> N -> result S) n ns a e :
  (forall e' n', f (Error e') n' = Error e') ->
  f a n = Error e -> fold_left f (n :: ns) a = Error e.
Proof.
  intros Herr Hfirst; cbn [fold_left]; rewrite Hfirst.
  induction ns as [|m ns IH]; cbn [fold_left]; [reflexivity|].
  rewrite Herr; exact IH.
Qed.

Lemma preprocess_train_nrows (sqrt : Q -> Q) (b : bundle) (df : dataframe)
    (b1 : bundle) (df1 : dataframe) :
  preprocess_train sqrt b df = Ok (b1, df1) -> df_nrows df1 = df_nrows df.
Proof.
  unfold preprocess_train; intros H.
  match type of H with
  | context [bind (fold_left ?f ?ns ?a) _] =>
      destruct (fold_left f ns a) as [[b0 d0]|e] eqn:F; cbn [bind] in H; [|discriminate H];
      assert (Hstep : forall acc n t, f acc n = Ok t ->
                exists s, acc = Ok s /\
                  (fun s (_ : string) t => df_nrows (snd t) = df_nrows (snd s)) s n t)
  end.
  { intros acc n t Ht; destruct acc as [[bb dd]|e]; cbn [bind] in Ht; [|discriminate Ht].
    exists (bb, dd); split; [reflexivity|].
    destruct (dict_get (df_cols dd) n) as [vals|].
    - destruct (label_fit_transform vals) as [[cl enc]|e]; cbn [bind] in Ht;
        [|discriminate Ht].
      injection Ht as <-; reflexivity.
    - injection Ht as <-; reflexivity. }
  destruct (fold_result_steps _ _ Hstep _ _ _ F) as [s [Hs Hsteps]].
  injection Hs as Hs; subst s; cbn [steps] in Hsteps.
  destruct Hsteps as [t1 [R1 [t2 [R2 E2]]]]; subst t2; cbn [snd] in *.
  repeat match type of H with
         | context [bind ?m _] =>
             destruct m; cbn [bind] in H; [|discriminate H]
         end.
  injection H as _ <-; cbn [df_nrows]; rewrite R2, R1; reflexivity.
Qed.

(** After a successful [train_models], from any starting predictor, the
    returned results dict has exactly the four variants, in order, and each
    variant has a fitted model in [self.models]: [predict_footprint] never
    reports one of them as not trained. *)
Theorem train_models_installs_variants
    (fit_regressor : string -> list (list Q) -> list Q -> regressor)
    (cv_r2_scores : string -> list (list Q) -> list Q -> list Q)
    (permutation : nat -> list nat) (sqrt : Q -> Q)
    (b : bundle) (df : dataframe) (b' : bundle) (res : list (string * metrics)) :
  train_models fit_regressor cv_r2_scores permutation sqrt b df = Ok (b', res) ->
  map fst res = model_variants /\
  (forall name, In name model_variants -> exists m, dict_get (models b') name = Some m).
Proof.
  unfold train_models; intros H.
  destruct (preprocess_train sqrt b df) as [[b1 df1]|e]; cbn [bind] in H; [|discriminate H].
  repeat match type of H with
         | context [bind (dict_index ?d ?k) _] =>
             destruct (dict_index d k); cbn [bind] in H; [|discriminate H]
         | context [bind (map_result ?g ?l) _] =>
             destruct (map_result g l); cbn [bind] in H; [|discriminate H]
         end.
  destruct (split_indices permutation (df_nrows df1)) as [[tr te]|e];
    cbn [bind] in H; [|discriminate H].
  match type of H with
  | fold_left ?f _ _ = _ =>
      assert (Hstep : forall acc n t, f acc n = Ok t ->
                exists s, acc = Ok s /\
                  (fun s n t => (exists m, models (fst t) = dict_set (models (fst s)) n m) /\
                                (exists met, snd t = dict_set (snd s) n met)) s n t)
  end.
  { intros acc n t Ht; destruct acc as [[bb rr]|e]; cbn [bind] in Ht; [|discriminate Ht].
    exists (bb, rr); split; [reflexivity|].
    match type of Ht with
    | context [bind (cross_val_score ?a ?b ?c ?d) _] =>
        destruct (cross_val_score a b c d); cbn [bind] in Ht; [|discriminate Ht]
    end.
    injection Ht as <-; split; eexists; reflexivity. }
  destruct (fold_result_steps _ _ Hstep _ _ _ H) as [s [Hs Hsteps]].
  injection Hs as Hs; subst s; unfold model_variants in Hsteps; cbn [steps] in Hsteps.
  destruct Hsteps as [t1 [[[m1 M1] [r1 S1]] [t2 [[[m2 M2] [r2 S2]]
                     [t3 [[[m3 M3] [r3 S3]] [t4 [[[m4 M4] [r4 S4]] E4]]]]]]]].
  subst t4.
  cbn [fst snd] in *.
  split.
  - rewrite S4, S3, S2, S1; reflexivity.
  - intros name Hn; unfold model_variants in Hn; cbn [In] in Hn.
    rewrite M4, M3, M2, M1, !dict_set_get.
    destruct Hn as [<- | [<- | [<- | [<- | []]]]]; eexists; reflexivity.
Qed.

Definition example_df : dataframe :=
  match generate_synthetic_data PredictorFacts.example_draws 10 with
  | Ok df => df
  | Error _ => {| df_nrows := 0; df_cols := [] |}
  end.

Definition example_training : bundle * list (string * metrics) :=
  match train_models PredictorFacts.mean_regressor PredictorFacts.dummy_cv_scores
          PredictorFacts.identity_permutation PredictorFacts.isqrt new_predictor example_df with
  | Ok p => p
  | Error _ => (new_predictor, [])
  end.

Lemma train_models_installs_variants_witness :
  map fst (snd example_training) = model_variants /\
  (forall name, In name model_variants ->
     exists m, dict_get (models (fst example_training)) name = Some m).
Proof.
  apply (train_models_installs_variants PredictorFacts.mean_regressor
           PredictorFacts.dummy_cv_scores PredictorFacts.identity_permutation
           PredictorFacts.isqrt new_predictor example_df).
  vm_compute; reflexivity.
Defined.

Lemma split_train_length (permutation : nat -> list nat) (n : nat) tr te :
  split_indices permutation n = Ok (tr, te) ->
  (length tr <= n - Z.to_nat (Qceiling (0.2 * inject_Z (Z.of_nat n))))%nat.
Proof.
  unfold split_indices.
  destruct (Nat.eqb _ 0); [discriminate|].
  intros H; injection H as <- <-; apply firstn_le_length.
Qed.

Lemma small_train_sizes (n : nat) :
  (n < 7)%nat -> (n - Z.to_nat (Qceiling (0.2 * inject_Z (Z.of_nat n))) < 5)%nat.
Proof.
  intros Hn; apply Nat.ltb_lt.
  destruct n as [|[|[|[|[|[|[|k]]]]]]]; [..|lia]; vm_compute; reflexivity.
Qed.

(** [train_models] never succeeds on fewer than 7 rows, whatever the
    regressors and the shuffle: 0 rows fail in the scaler, 1 row in the
    split, and 2 to 6 rows leave fewer than 5 training rows for the 5-fold
    cross-validation. *)
Theorem train_models_few_rows_fail
    (fit_regressor : string -> list (list Q) -> list Q -> regressor)
    (cv_r2_scores : string -> list (list Q) -> list Q -> list Q)
    (permutation : nat -> list nat) (sqrt : Q -> Q)
    (b : bundle) (df : dataframe) :
  (df_nrows df < 7)%nat ->
  forall p, train_models fit_regressor cv_r2_scores permutation sqrt b df <> Ok p.
Proof.
  intros Hn p H; unfold train_models in H.
  destruct (preprocess_train sqrt b df) as [[b1 df1]|e] eqn:Hp; cbn [bind] in H;
    [|discriminate H].
  pose proof (preprocess_train_nrows _ _ _ _ _ Hp) as Hrows.
  repeat match type of H with
         | context [bind (dict_index ?d ?k) _] =>
             destruct (dict_index d k); cbn [bind] in H; [|discriminate H]
         | context [bind (map_result ?g ?l) _] =>
             destruct (map_result g l); cbn [bind] in H; [|discriminate H]
         end.
  destruct (split_indices permutation (df_nrows df1)) as [[tr te]|e] eqn:Hs;
    cbn [bind] in H; [|discriminate H].
  assert (Htr : (length tr < 5)%nat).
  { pose proof (split_train_length _ _ _ _ Hs) as Hb; rewrite Hrows in Hb.
    pose proof (small_train_sizes _ Hn); lia. }
  unfold model_variants in H.
  match type of H with
  | fold_left ?f (?n :: ?ns) ?a = _ =>
      assert (Herr : forall e' n', f (Error e') n' = Error e') by reflexivity;
      assert (Hfirst : exists e, f a n = Error e)
  end.
  { cbn [bind]; unfold cross_val_score; rewrite length_map.
    apply Nat.ltb_lt in Htr; rewrite Htr; cbn [bind]; eexists; reflexivity. }
  destruct Hfirst as [e He].
  rewrite (fold_result_first_error _ _ _ _ _ Herr He) in H; discriminate H.
Qed.

Definition six_rows : dataframe :=
  match generate_synthetic_data PredictorFacts.example_draws 6 with
  | Ok df => df
  | Error _ => {| df_nrows := 0; df_cols := [] |}
  end.

Lemma train_models_few_rows_fail_witness :
  match train_models PredictorFacts.mean_regressor PredictorFacts.dummy_cv_scores
          PredictorFacts.identity_permutation PredictorFacts.isqrt new_predictor six_rows with
  | Ok _ => False
  | Error _ => True
  end.
Proof.
  destruct (train_models PredictorFacts.mean_regressor PredictorFacts.dummy_cv_scores
              PredictorFacts.identity_permutation PredictorFacts.isqrt new_predictor six_rows)
    as [p|e] eqn:E; [|exact I].
  assert (Hn : (df_nrows six_rows < 7)%nat)
    by (apply Nat.ltb_lt; vm_compute; reflexivity).
  exact (train_models_few_rows_fail _ _ _ _ _ _ Hn p E).
Defined.

(** [train_test_split] with [test_size=0.2] raises exactly when there are
    at most one sample. *)
Theorem split_indices_error_iff (permutation : nat -> list nat) (n : nat) :
  (exists e, split_indices permutation n = Error e) <-> (n <= 1)%nat.
Proof.
  unfold split_indices.
  split.
  - intros [e He].
    destruct (Nat.le_gt_cases n 1) as [Hle | Hgt]; [exact Hle | exfalso].
    assert (Hc : (Qceiling (0.2 * inject_Z (Z.of_nat n)) <= Z.of_nat n - 1)%Z).
    { rewrite <- (Qceiling_Z (Z.of_nat n - 1)).
      apply Qceiling_resp_le.
      unfold Qle, Qmult, inject_Z; cbn [Qnum Qden]; lia. }
    assert (Hc0 : (0 <= Qceiling (0.2 * inject_Z (Z.of_nat n)))%Z).
    { rewrite <- (Qceiling_Z 0).
      apply Qceiling_resp_le.
      unfold Qle, Qmult, inject_Z; cbn [Qnum Qden]; lia. }
    destruct (Nat.eqb_spec (n - Z.to_nat (Qceiling (0.2 * inject_Z (Z.of_nat n)))) 0)
      as [E | E]; [lia | discriminate He].
  - intros Hn; destruct n as [|[|n]]; [| |lia]; eexists; reflexivity.
Qed.

Lemma split_indices_error_iff_witness :
  exists e, split_indices PredictorFacts.identity_permutation 1 = Error e.
Proof. apply split_indices_error_iff; lia. Defined.

(** At prediction time, a ['location_type'] or ['vehicle_type'] value the
    fitted encoder has not seen makes [predict_footprint] raise the
    encoder's [ValueError], for any trained model. *)
Theorem predict_unseen_category_error (b : bundle) (user_data : list (string * cell))
    (model_name col : string) (v : cell) (classes : list cell) :
  dict_mem (models b) model_name = true ->
  (col = "location_type" \/ col = "vehicle_type") ->
  dict_get user_data col = Some v ->
  dict_get (encoders b) col = Some classes ->
  index_of v classes = None ->
  predict_footprint b user_data model_name =
    Error (ValueError "y contains previously unseen labels").
Proof.
  intros Hm Hcol Hv He Hi.
  unfold predict_footprint; unfold dict_mem in Hm.
  destruct (dict_get (models b) model_name); [|discriminate Hm].
  unfold preprocess_infer; cbn [fold_left bind].
  destruct Hcol as [-> | ->].
  - rewrite Hv, He; unfold label_transform at 1; rewrite Hi; reflexivity.
  - destruct (dict_get user_data "location_type") as [v0|] eqn:E0;
    destruct (dict_get (encoders b) "location_type") as [cl|] eqn:C0; cbn [bind];
      try (rewrite Hv, He; unfold label_transform at 1; rewrite Hi; reflexivity).
    unfold label_transform at 1.
    destruct (index_of v0 cl); cbn [bind]; [|reflexivity].
    rewrite dict_set_get; cbn [String.eqb Ascii.eqb Bool.eqb andb].
    rewrite Hv, He; unfold label_transform; rewrite Hi; reflexivity.
Qed.

Definition encoded_bundle : bundle :=
  {| models := [("random_forest", fun _ => 0)]; scalers := [];
     encoders := [("location_type", [CStr "rural"; CStr "suburban"; CStr "urban"]);
                  ("vehicle_type",
                   [CStr "diesel"; CStr "electric"; CStr "gasoline"; CStr "hybrid"])];
     feature_names := [] |}.

Lemma predict_unseen_category_error_witness :
  predict_footprint encoded_bundle
    [("location_type", CStr "urban"); ("vehicle_type", CStr "hydrogen")] "random_forest" =
    Error (ValueError "y contains previously unseen labels").
Proof.
  apply (predict_unseen_category_error _ _ _ "vehicle_type" (CStr "hydrogen")
           [CStr "diesel"; CStr "electric"; CStr "gasoline"; CStr "hybrid"]);
    try reflexivity.
  right; reflexivity.
Defined.

End TrainingFacts.

Module FeatureImportanceFacts.
Import Predictor FeatureImportance.

Definition by_value_desc (x y : string * Q) : Prop := snd y <= snd x.

Lemma Qltb_true_le (a b : Q) : Qltb a b = true -> a <= b.
Proof.
  unfold Qltb; intros H; apply negb_true_iff in H.
  apply Qlt_le_weak, Qnot_le_lt; intros Hle; apply Qle_bool_iff in Hle; congruence.
Qed.

Lemma Qltb_false_le (a b : Q) : Qltb a b = false -> b <= a.
Proof. unfold Qltb; intros H; apply negb_false_iff, Qle_bool_iff in H; exact H. Qed.

Lemma insert_by_value_sorted (x : string * Q) (l : list (string * Q)) :
  Sorted by_value_desc l -> Sorted by_value_desc (insert_by_value x l).
Proof.
  induction l as [|y l IH]; intros Hs; cbn [insert_by_value].
  - repeat constructor.
  - destruct (Qltb (snd y) (snd x)) eqn:Hyx.
    + constructor; [exact Hs|].
      constructor; apply Qltb_true_le; exact Hyx.
    + apply Sorted_inv in Hs; destruct Hs as [Hs Hhd].
      constructor; [apply IH; exact Hs|].
      destruct l as [|z l]; cbn [insert_by_value].
      * constructor; apply Qltb_false_le; exact Hyx.
      * destruct (Qltb (snd z) (snd x)); constructor.
        -- apply Qltb_false_le; exact Hyx.
        -- inversion Hhd; assumption.
Qed.

Lemma insert_by_value_in (x z : string * Q) (l : list (string * Q)) :
  In z (insert_by_value x l) -> z = x \/ In z l.
Proof.
  induction l as [|y l IH]; cbn [insert_by_value In].
  - intros [E | []]; left; congruence.
  - destruct (Qltb (snd y) (snd x)); cbn [In].
    + intros [E | H]; [left; congruence | right; exact H].
    + intros [E | H]; [right; left; exact E|].
      destruct (IH H) as [E | H']; [left; exact E | right; right; exact H'].
Qed.

Lemma sort_by_value_desc_spec (l : list (string * Q)) :
  Sorted by_value_desc (sort_by_value_desc l) /\
  (forall z, In z (sort_by_value_desc l) -> In z l).
Proof.
  unfold sort_by_value_desc.
  assert (H : forall acc, Sorted by_value_desc acc ->
            Sorted by_value_desc (fold_left (fun acc x => insert_by_value x acc) l acc) /\
            (forall z, In z (fold_left (fun acc x => insert_by_value x acc) l acc) ->
                       In z l \/ In z acc)).
  { induction l as [|x l IH]; intros acc Hacc; cbn [fold_left].
    - split; [exact Hacc | intros z Hz; right; exact Hz].
    - destruct (IH (insert_by_value x acc) (insert_by_value_sorted x acc Hacc)) as [S I].
      split; [exact S|].
      intros z Hz; destruct (I z Hz) as [Hl | Hi]; [left; right; exact Hl|].
      destruct (insert_by_value_in x z acc Hi) as [E | Ha];
        [left; left; symmetry; exact E | right; exact Ha]. }
  destruct (H [] (Sorted_nil _)) as [S I]; split; [exact S|].
  intros z Hz; destruct (I z Hz) as [Hl | []]; exact Hl.
Qed.

Lemma dict_set_in {V} (d : list (string * V)) (k : string) (v : V) (z : string * V) :
  In z (dict_set d k v) -> fst z = k \/ In (fst z) (map fst d).
Proof.
  unfold dict_set; destruct (dict_mem d k).
  - intros Hz; apply in_map_iff in Hz; destruct Hz as [[k0 v0] [E Hin]].
    right; apply in_map_iff; exists (k0, v0); split; [|exact Hin].
    destruct (String.eqb k k0); subst z; reflexivity.
  - intros Hz; apply in_app_or in Hz; destruct Hz as [Hz | [E | []]].
    + right; apply in_map, Hz.
    + left; subst z; reflexivity.
Qed.

Lemma fold_dict_set_keys (pairs : list (string * Q)) (d : list (string * Q)) (z : string * Q) :
  In z (fold_left (fun d '(k, v) => dict_set d k v) pairs d) ->
  In (fst z) (map fst pairs) \/ In (fst z) (map fst d).
Proof.
  revert d; induction pairs as [|[k v] pairs IH]; intros d Hz; cbn [fold_left map] in *.
  - right; apply in_map, Hz.
  - destruct (IH _ Hz) as [H | H]; [left; right; exact H|].
    apply in_map_iff in H; destruct H as [z' [E Hz']].
    destruct (dict_set_in d k v z' Hz') as [Ek | Hd].
    + left; left; rewrite <- E, Ek; reflexivity.
    + right; rewrite <- E; exact Hd.
Qed.

(** [get_feature_importance] returns its (feature, importance) pairs sorted
    by decreasing importance, and every feature it names is one of the
    predictor's [feature_names]. *)
Theorem feature_importance_sorted (b : bundle)
    (feature_importances_ : string -> option (list Q)) (model_name : string)
    (l : list (string * Q)) :
  get_feature_importance b feature_importances_ model_name = Ok l ->
  Sorted by_value_desc l /\ Forall (fun kv => In (fst kv) (feature_names b)) l.
Proof.
  unfold get_feature_importance.
  destruct (dict_get (models b) model_name); [|discriminate].
  destruct (feature_importances_ model_name) as [imps|].
  - intros H; injection H as <-.
    destruct (sort_by_value_desc_spec
                (fold_left (fun d '(k, v) => dict_set d k v)
                   (combine (feature_names b) imps) [])) as [S I].
    split; [exact S|].
    apply Forall_forall; intros z Hz.
    destruct (fold_dict_set_keys _ _ z (I z Hz)) as [Hk | []].
    apply in_map_iff in Hk; destruct Hk as [[k v] [E Hkv]]; cbn [fst] in E; subst k.
    exact (in_combine_l _ _ _ _ Hkv).
  - intros H; injection H as <-; split; constructor.
Qed.

Definition importance_bundle : bundle :=
  {| models := [("random_forest", fun _ => 0)]; scalers := []; encoders := [];
     feature_names := ["age"; "income"; "car_miles_per_week"] |}.

Definition importance_attr (_ : string) : option (list Q) := Some [1 # 10; 5 # 10; 2 # 10].

Definition importance_result : list (string * Q) :=
  match get_feature_importance importance_bundle importance_attr "random_forest" with
  | Ok l => l
  | Error _ => []
  end.

Lemma feature_importance_sorted_witness :
  Sorted by_value_desc importance_result /\
  Forall (fun kv => In (fst kv) (feature_names importance_bundle)) importance_result.
Proof. apply (feature_importance_sorted _ importance_attr "random_forest"); vm_compute; reflexivity. Defined.

End FeatureImportanceFacts.
